(** * x402 image uploader: the Express service of [backend/test-server.js]

    A shallow embedding of the server module: environment validation at
    start-up, the middleware chain (payment gate, multipart upload
    validator, route handlers, error middleware, 404 handler) and the
    calls it makes to its collaborators (clock, payment facilitator,
    object storage, [images] table).

    The collaborators are not part of the repository.  Their answers are
    inputs of the model (record [World]); every call is recorded, with
    its answer, in an event trace, so that "no storage write happened"
    is a statement about the trace of a request. *)

From Stdlib Require Import NArith ZArith List Lia Permutation Sorted.
From Stdlib Require Import Decimal DecimalString DecimalN.
From stdpp Require Import base option gmap strings list.

Local Open Scope N_scope.

(** ** JavaScript values used by the module *)

Module JS.

(** [!!v] for a value that is [undefined] or a string: the empty string
    is falsy. *)
Definition truthy (v : option string) : bool :=
  match v with
  | Some s => negb (String.eqb s "")
  | None => false
  end.

(** [v || d] with a string default. *)
Definition or_default (v : option string) (d : string) : string :=
  match v with
  | Some s => if truthy v then s else d
  | None => d
  end.

(** [v || null]. *)
Definition or_null (v : option string) : option string :=
  if truthy v then v else None.

(** [s.startsWith(p)]. *)
Definition startsWith (s p : string) : bool := String.prefix p s.

(** ASCII letter case as a regular expression with the [i] flag folds it. *)
Definition lower (c : Ascii.ascii) : Ascii.ascii :=
  let n := Ascii.nat_of_ascii c in
  if (65 <=? n)%nat && (n <=? 90)%nat then Ascii.ascii_of_nat (n + 32) else c.

Fixpoint toLowerCase (s : string) : string :=
  match s with
  | EmptyString => EmptyString
  | String c rest => String (lower c) (toLowerCase rest)
  end.

(** The part of [s] before the first occurrence of [mark], all of [s]
    when there is none. *)
Definition before (mark s : string) : string :=
  match String.index 0 mark s with
  | Some n => String.substring 0 n s
  | None => s
  end.

(** [`${n}`] for a non-negative integer: its decimal digits. *)
Definition show (n : N) : string := NilEmpty.string_of_uint (N.to_uint n).

End JS.

(** ** Data model *)

(** The [images] row the handler builds (lines 329-337).  [uploaded_at]
    is an instant in milliseconds; the source carries its ISO-8601
    rendering. *)
Record ImageRecord := {
  user_address : option string;
  path : string;
  mime : string;
  uploaded_at : N;
  public_url : string;
  file_size : N;
  original_name : string
}.

(** A stored row: the record with the identifier generated at insert time. *)
Record Row := {
  id : string;
  fields : ImageRecord
}.

(** A Node [Buffer]: its length and its bytes by index.  Uploads are
    megabytes long, so the bytes are not spelled out as a list. *)
Record Buffer := {
  byteLength : N;
  byteAt : N -> Byte.byte
}.

(** The file of a multipart part, as multer's memory storage presents it:
    [file.size] is the length of [file.buffer]. *)
Record File := {
  originalname : string;
  mimetype : string;
  buffer : Buffer
}.

Definition size (file : File) : N := byteLength (buffer file).

Inductive Method := GET | HEAD | POST | PUT | PATCH | DELETE | OPTIONS.

Definition Method_eqb (a b : Method) : bool :=
  match a, b with
  | GET, GET | HEAD, HEAD | POST, POST | PUT, PUT
  | PATCH, PATCH | DELETE, DELETE | OPTIONS, OPTIONS => true
  | _, _ => false
  end.

(** A request as the middleware chain sees it: method, request target
    (path and query string), headers (lower-cased names, as Node delivers
    them) and the file part of the multipart field [image], if the body
    has one.  Requests carry no JSON body, so [express.json()] has nothing
    to parse. *)
Record Request := {
  method : Method;
  url : string;
  headers : gmap string string;
  image : option File
}.

#[local] Unset Elimination Schemes.
Inductive Json :=
| JNull
| JStr (s : string)
| JNum (n : N)
| JIso (ms : N)
| JArr (items : list Json)
| JObj (members : list (string * Json)).
#[local] Set Elimination Schemes.

(** A response: the status and the object handed to [res.json] (for a
    [HEAD] request Node sends the status line and the headers only). *)
Record Response := {
  status : N;
  body : list (string * Json)
}.

(** [body.k], [None] when the object has no such key. *)
Fixpoint member (k : string) (o : list (string * Json)) : option Json :=
  match o with
  | [] => None
  | (k', v) :: o' => if String.eqb k k' then Some v else member k o'
  end.

(** [res.json(o)] and [res.status(c).json(o)]. *)
Definition json (o : list (string * Json)) : Response :=
  {| status := 200; body := o |}.
Definition status_json (c : N) (o : list (string * Json)) : Response :=
  {| status := c; body := o |}.

Definition json_of_option (v : option string) : Json :=
  match v with Some s => JStr s | None => JNull end.

Definition json_of_row (r : Row) : Json :=
  JObj [ ("id", JStr (id r));
         ("user_address", json_of_option (user_address (fields r)));
         ("path", JStr (path (fields r)));
         ("mime", JStr (mime (fields r)));
         ("uploaded_at", JIso (uploaded_at (fields r)));
         ("public_url", JStr (public_url (fields r)));
         ("file_size", JNum (file_size (fields r)));
         ("original_name", JStr (original_name (fields r))) ].

(** ** Start-up (lines 212-238) *)

(** The multer instance: its limits are written in the module. *)
Record Multer := {
  fileSize : N
}.

Record Server := {
  PORT : string;
  facilitatorUrl : string;
  payTo : string;
  network : string;
  supabaseUrl : string;
  supabaseServiceKey : string;
  STORAGE_BUCKET : option string;
  upload : Multer
}.

(** How loading the module ends: [process.exit], an exception nobody
    catches, or a listening server. *)
Inductive Process :=
| Exited (code : Z) (stderr : list string)
| Uncaught (message : string)
| Listening (srv : Server).

(** Modelled from the spec: [createClient] belongs to the dependency
    supabase-js, whose code is not in the repository.  Section 6 lists
    the database connection credentials as configuration; the client is
    not built without them: a missing or empty URL or key makes
    [createClient] throw. *)
Definition createClient (url key : option string) : string + string * string :=
  if negb (JS.truthy url) then inl "supabaseUrl is required."
  else if negb (JS.truthy key) then inl "supabaseKey is required."
  else inr (default "" url, default "" key).

Definition missing_env_message : string :=
  "Missing required environment variables: FACILITATOR_URL and ADDRESS must be set".

Definition startup (env : gmap string string) : Process :=
  let port := JS.or_default (env !! "PORT") "3001" in
  let facilitatorUrl := env !! "FACILITATOR_URL" in
  let payTo := env !! "ADDRESS" in
  let network := JS.or_default (env !! "NETWORK") "base-sepolia" in
  if negb (JS.truthy facilitatorUrl) || negb (JS.truthy payTo) then
    Exited 1 [missing_env_message]
  else
    match createClient (env !! "SUPABASE_URL") (env !! "SUPABASE_KEY") with
    | inl thrown => Uncaught thrown
    | inr (supabaseUrl, supabaseServiceKey) =>
        Listening {| PORT := port;
                     facilitatorUrl := default "" facilitatorUrl;
                     payTo := default "" payTo;
                     network := network;
                     supabaseUrl := supabaseUrl;
                     supabaseServiceKey := supabaseServiceKey;
                     STORAGE_BUCKET := env !! "STORAGE_BUCKET";
                     upload := {| fileSize := 5 * 1024 * 1024 |} |}
    end.

(** ** Collaborators and effects *)

(** What an awaited promise does: resolve to a value or reject. *)
Inductive Outcome (A : Type) :=
| Resolved (a : A)
| Rejected (reason : string).
Arguments Resolved {A} a.
Arguments Rejected {A} reason.

(** The [{ data, error }] pair supabase-js resolves to. *)
Inductive SupaResult (A : Type) :=
| Data (data : A)
| Failure (error : string).
Arguments Data {A} data.
Arguments Failure {A} error.

(** A query on a table, as the supabase-js builder assembles it:
    [from(t).select(c).order(column, { ascending })]. *)
Record Query := {
  from : string;
  select : string;
  order_column : string;
  ascending : bool
}.

(** The answers of the outside world during one request.  [clock n] is
    the value of the [n]-th clock read; [storage_upload] answers an
    upload that passes no [upsert] option. *)
Record World := {
  clock : nat -> N;
  facilitator_verify : string -> Outcome bool;
  storage_upload :
    option string -> string -> Buffer -> string -> Outcome (SupaResult unit);
  storage_getPublicUrl : option string -> string -> string;
  images_insert : ImageRecord -> Outcome (SupaResult Row);
  images_select : Query -> Outcome (SupaResult (list Row))
}.

(** One entry per call made, with the answer received. *)
Inductive Event :=
| EVerify (credential : string) (answer : Outcome bool)
| EStorageUpload (bucket : option string) (filePath : string)
    (content : Buffer) (contentType : string)
    (answer : Outcome (SupaResult unit))
| EDbInsert (record : ImageRecord) (answer : Outcome (SupaResult Row))
| EDbSelect (query : Query) (answer : Outcome (SupaResult (list Row)))
| EConsoleError (line : string).

Record St := {
  reads : nat;
  trace : list Event
}.

Definition St0 : St := {| reads := 0%nat; trace := [] |}.

(** Handler code: reads the world, threads the state, may throw. *)
Definition M (A : Type) : Type := World -> St -> Outcome A * St.

Definition ret {A} (a : A) : M A := fun _ s => (Resolved a, s).

Definition bind {A B} (m : M A) (k : A -> M B) : M B :=
  fun w s =>
    match m w s with
    | (Resolved a, s') => k a w s'
    | (Rejected e, s') => (Rejected e, s')
    end.

(** [try { m } catch (error) { h error }]. *)
Definition try_catch {A} (m : M A) (h : string -> M A) : M A :=
  fun w s =>
    match m w s with
    | (Resolved a, s') => (Resolved a, s')
    | (Rejected e, s') => h e w s'
    end.

Notation "'let!' x ':=' m 'in' k" := (bind m (fun x => k))
  (at level 10, x name, m at level 100, k at level 200).
Notation "'run!' m 'in' k" := (bind m (fun _ => k))
  (at level 10, m at level 100, k at level 200).

Definition emit (e : Event) : M unit :=
  fun _ s => (Resolved tt, {| reads := reads s; trace := trace s ++ [e] |}).

(** An awaited call: log it with its answer, throw when it rejects. *)
Definition await {A} (ev : Outcome A -> Event) (ask : World -> Outcome A) : M A :=
  fun w s =>
    (ask w, {| reads := reads s; trace := trace s ++ [ev (ask w)] |}).

(** [Date.now()] and [new Date()]. *)
Definition date_now : M N :=
  fun w s => (Resolved (clock w (reads s)),
              {| reads := S (reads s); trace := trace s |}).

Definition console_error (line : string) : M unit := emit (EConsoleError line).

Definition verify (credential : string) : M bool :=
  await (EVerify credential) (fun w => facilitator_verify w credential).

Definition supabase_storage_upload (bucket : option string) (filePath : string)
    (content : Buffer) (contentType : string) : M (SupaResult unit) :=
  await (EStorageUpload bucket filePath content contentType)
        (fun w => storage_upload w bucket filePath content contentType).

Definition supabase_storage_getPublicUrl (bucket : option string)
    (filePath : string) : M string :=
  fun w s => (Resolved (storage_getPublicUrl w bucket filePath), s).

Definition supabase_images_insert (r : ImageRecord) : M (SupaResult Row) :=
  await (EDbInsert r) (fun w => images_insert w r).

(** The query of lines 280-283. *)
Definition images_query : Query :=
  {| from := "images"; select := "*";
     order_column := "uploaded_at"; ascending := false |}.

Definition supabase_images_select_ordered : M (SupaResult (list Row)) :=
  await (EDbSelect images_query) (fun w => images_select w images_query).

(** ** The middleware chain *)

Inductive JsError :=
| Error (message : string)
| MulterError (code : string) (message : string).

Definition message (e : JsError) : string :=
  match e with
  | Error m => m
  | MulterError _ m => m
  end.

(** What a middleware does with a request: call [next()], call
    [next(error)], or send the response. *)
Inductive Flow :=
| Next
| NextError (e : JsError)
| Sent (r : Response).

(** *** Payment gate (lines 250-266) *)

Record RouteConfig := {
  price : string;
  route_network : string;
  description : string
}.

Definition upload_route (srv : Server) : RouteConfig :=
  {| price := "$0.0001";
     route_network := network srv;
     description := "Upload image to storage" |}.

Definition routes_of (srv : Server) : list (Method * string * RouteConfig) :=
  [ (POST, "/upload", upload_route srv) ].

(** The path of a request target: without query string and fragment. *)
Definition pathname (target : string) : string :=
  JS.before "#" (JS.before "?" target).

(** A route path written as a plain string matches a request path
    whatever the letter case, with or without one trailing slash (the
    regular expression [^<path>\/?$] with the [i] flag). *)
Definition path_matches (p target : string) : bool :=
  let requested := JS.toLowerCase (pathname target) in
  String.eqb requested (JS.toLowerCase p)
  || String.eqb requested (JS.toLowerCase p +:+ "/").

(** A route of the payment table applies to its own verb only. *)
Definition gated (m : Method) (p : string) (req : Request) : bool :=
  Method_eqb (method req) m && path_matches p (url req).

(** [app.get] and [app.post] routes: a [GET] route also serves [HEAD]. *)
Definition route_matches (m : Method) (p : string) (req : Request) : bool :=
  (Method_eqb (method req) m
   || Method_eqb m GET && Method_eqb (method req) HEAD)
  && path_matches p (url req).

Fixpoint find_route (routes : list (Method * string * RouteConfig))
    (req : Request) : option RouteConfig :=
  match routes with
  | [] => None
  | (m, p, cfg) :: rest =>
      if gated m p req then Some cfg else find_route rest req
  end.

Definition payment_requirement (payee : string) (cfg : RouteConfig) : Json :=
  JObj [ ("maxAmountRequired", JStr (price cfg));
         ("network", JStr (route_network cfg));
         ("payTo", JStr payee);
         ("description", JStr (description cfg)) ].

Definition payment_required (payee : string) (cfg : RouteConfig) : Response :=
  status_json 402 [ ("accepts", JArr [ payment_requirement payee cfg ]) ].

(** Modelled from the spec: [paymentMiddleware] belongs to the
    dependency x402-express, whose code is not in the repository.
    Section 4.1: on a configured route and method a request
    whose credential (header [x-payment]) is absent, or not accepted by
    the facilitator, is answered with the challenge listing amount,
    network, payee and description; with a valid credential the request
    passes through; other routes are not gated.  A facilitator that
    cannot be reached accepts nothing. *)
Definition paymentMiddleware (payee : string)
    (routes : list (Method * string * RouteConfig)) (req : Request) : M Flow :=
  match find_route routes req with
  | None => ret Next
  | Some cfg =>
      match headers req !! "x-payment" with
      | None => ret (Sent (payment_required payee cfg))
      | Some credential =>
          try_catch
            (let! valid := verify credential in
             if valid then ret Next
             else ret (Sent (payment_required payee cfg)))
            (fun _ => ret (Sent (payment_required payee cfg)))
      end
  end.

(** *** Upload validator (lines 234-247) *)

(** The [fileFilter] callback: [cb(null, true)] or [cb(error, false)]. *)
Definition fileFilter (file : File) : JsError + bool :=
  if JS.startsWith (mimetype file) "image/" then inr true
  else inl (Error "Only image files are allowed!").

(** Modelled from the spec: [upload.single('image')] belongs to the
    dependency multer, whose code is not in the repository.
    Section 4.2: the file of the multipart field is offered
    to the filter first; an accepted file larger than [limits.fileSize]
    is rejected with multer's [LIMIT_FILE_SIZE] error before the handler
    runs; otherwise the file becomes [req.file].  Without a file part the
    handler runs with [req.file] undefined. *)
Definition single (m : Multer) (filter : File -> JsError + bool)
    (part : option File) : JsError + option File :=
  match part with
  | None => inr None
  | Some file =>
      match filter file with
      | inl e => inl e
      | inr false => inr None
      | inr true =>
          if fileSize m <? size file
          then inl (MulterError "LIMIT_FILE_SIZE" "File too large")
          else inr (Some file)
      end
  end.

(** *** Route handlers *)

(** [GET /health] (lines 269-275). *)
Definition health : M Response :=
  let! now := date_now in
  ret (json [ ("status", JStr "ok");
              ("message", JStr "x402 Image Uploader Service is running");
              ("timestamp", JIso now) ]).

(** [GET /images] (lines 278-295). *)
Definition images : M Response :=
  try_catch
    (let! r := supabase_images_select_ordered in
     match r with
     | Failure e =>
         run! console_error "Database error:" in
         ret (status_json 500 [ ("error", JStr "Failed to fetch images") ])
     | Data data =>
         ret (json [ ("images", JArr (map json_of_row data)) ])
     end)
    (fun _ =>
       run! console_error "Server error:" in
       ret (status_json 500 [ ("error", JStr "Internal server error") ])).

(** [fileName] and [filePath] (lines 307-308). *)
Definition fileName (now : N) (file : File) : string :=
  JS.show now +:+ "-" +:+ originalname file.

Definition filePath (now : N) (file : File) : string :=
  "uploads/" +:+ fileName now file.

(** The object literal of lines 329-337. *)
Definition imageRecord (req : Request) (file : File) (filePath : string)
    (now : N) (publicUrl : string) : ImageRecord :=
  {| user_address := JS.or_null (headers req !! "x-user-address");
     path := filePath;
     mime := mimetype file;
     uploaded_at := now;
     public_url := publicUrl;
     file_size := size file;
     original_name := originalname file |}.

(** [POST /upload], after multer (lines 300-368). *)
Definition upload_handler (srv : Server) (req : Request)
    (req_file : option File) : M Response :=
  try_catch
    (match req_file with
     | None =>
         ret (status_json 400 [ ("error", JStr "No image file provided") ])
     | Some file =>
         let! now := date_now in
         let filePath := filePath now file in
         let! uploaded :=
           supabase_storage_upload (STORAGE_BUCKET srv) filePath
             (buffer file) (mimetype file) in
         match uploaded with
         | Failure uploadError =>
             run! console_error "Upload error:" in
             ret (status_json 500
                    [ ("error", JStr "Failed to upload image to storage") ])
         | Data _ =>
             let! publicUrl :=
               supabase_storage_getPublicUrl (STORAGE_BUCKET srv) filePath in
             let! created := date_now in
             let imageRecord := imageRecord req file filePath created publicUrl in
             let! inserted := supabase_images_insert imageRecord in
             match inserted with
             | Failure dbError =>
                 run! console_error "Database error:" in
                 ret (status_json 201
                        [ ("message",
                           JStr "Image uploaded successfully (metadata save failed)");
                          ("url", JStr publicUrl);
                          ("path", JStr filePath) ])
             | Data dbData =>
                 ret (status_json 201
                        [ ("message", JStr "Image uploaded successfully");
                          ("id", JStr (id dbData));
                          ("url", JStr publicUrl);
                          ("path", JStr filePath);
                          ("uploadedAt", JIso (uploaded_at (fields dbData))) ])
             end
         end
     end)
    (fun _ =>
       run! console_error "Upload error:" in
       ret (status_json 500
              [ ("error", JStr "Internal server error during upload") ])).

(** Error-handling middleware (lines 372-385). *)
Definition is_file_size_error (e : JsError) : bool :=
  match e with
  | MulterError code _ => String.eqb code "LIMIT_FILE_SIZE"
  | Error _ => false
  end.

Definition error_middleware (e : JsError) : M Response :=
  if is_file_size_error e then
    ret (status_json 400
           [ ("error", JStr "File too large. Maximum size is 10MB.") ])
  else if String.eqb (message e) "Only image files are allowed!" then
    ret (status_json 400 [ ("error", JStr "Only image files are allowed") ])
  else
    run! console_error "Unhandled error:" in
    ret (status_json 500 [ ("error", JStr "Internal server error") ]).

(** 404 handler (lines 388-390). *)
Definition not_found : M Response :=
  ret (status_json 404 [ ("error", JStr "Endpoint not found") ]).

(** The validator and the handler of [POST /upload], as chained by
    [app.post('/upload', upload.single('image'), handler)]. *)
Definition validate_and_handle (srv : Server) (req : Request) : M Response :=
  match single (upload srv) fileFilter (image req) with
  | inl e => error_middleware e
  | inr req_file => upload_handler srv req req_file
  end.

(** [cors()] (line 225): a preflight is answered at once with 204 and
    no body; every other request is passed on. *)
Definition cors (req : Request) : Flow :=
  match method req with
  | OPTIONS => Sent {| status := 204; body := [] |}
  | _ => Next
  end.

(** [express.json()] (line 226): the requests of the model have no JSON
    body to parse. *)
Definition express_json (req : Request) : Flow := Next.

(** The routes and the 404 handler behind the payment gate. *)
Definition routes (srv : Server) (req : Request) : M Response :=
  if route_matches GET "/health" req then health
  else if route_matches GET "/images" req then images
  else if route_matches POST "/upload" req then validate_and_handle srv req
  else not_found.

(** What the chain does with the outcome of one middleware. *)
Definition and_then (flow : Flow) (rest : M Response) : M Response :=
  match flow with
  | Sent r => ret r
  | NextError e => error_middleware e
  | Next => rest
  end.

(** The application: middleware and routes in registration order (lines
    225-226, 250-266, 269-390). *)
Definition app (srv : Server) (req : Request) : M Response :=
  and_then (cors req)
    (and_then (express_json req)
       (let! gate := paymentMiddleware (payTo srv) (routes_of srv) req in
        and_then gate (routes srv req))).

(** Serving one request: the response sent and the calls made. *)
Definition serve (srv : Server) (w : World) (req : Request)
    : Outcome Response * list Event :=
  let '(r, s) := app srv req w St0 in (r, trace s).

(** *** The [images] table *)








(** ** Observations on a served request *)

Definition is_storage_write (e : Event) : bool :=
  match e with
  | EStorageUpload _ _ _ _ _ => true
  | _ => false
  end.

Definition is_db_insert (e : Event) : bool :=
  match e with
  | EDbInsert _ _ => true
  | _ => false
  end.

(** Neither the object store nor the table was written to. *)
Definition no_writes (tr : list Event) : bool :=
  forallb (fun e => negb (is_storage_write e) && negb (is_db_insert e)) tr.

(** The request carries a credential the facilitator accepts. *)
Definition valid_credential (w : World) (req : Request) : Prop :=
  exists credential,
    headers req !! "x-payment" = Some credential /\
    facilitator_verify w credential = Resolved true.

(** The ceiling can be changed through the environment: two environments
    start servers with different ceilings. *)
Definition ceiling_configurable : Prop :=
  exists env1 env2 srv1 srv2,
    startup env1 = Listening srv1 /\
    startup env2 = Listening srv2 /\
    fileSize (upload srv1) <> fileSize (upload srv2).

(** The state in which the validator starts once the gate has verified
    [credential]. *)
Definition after_gate (credential : string) : St :=
  {| reads := 0%nat; trace := [EVerify credential (Resolved true)] |}.

(** ** The paths through the middleware chain *)

(** The request is a [POST /upload] whose credential the facilitator
    accepted. *)
Definition paid (w : World) (req : Request) (credential : string) : Prop :=
  route_matches POST "/upload" req = true /\
  headers req !! "x-payment" = Some credential /\
  facilitator_verify w credential = Resolved true.

(** The validator lets the request's file through to the handler. *)
Definition accepted (srv : Server) (req : Request) (file : File) : Prop :=
  image req = Some file /\
  JS.startsWith (mimetype file) "image/" = true /\
  size file <= fileSize (upload srv).

(** The path the handler stores [file] under: the first clock read of the
    request goes into it. *)
Definition stored_path (w : World) (file : File) : string :=
  filePath (clock w 0) file.

Definition storage_answer (srv : Server) (w : World) (file : File)
    : Outcome (SupaResult unit) :=
  storage_upload w (STORAGE_BUCKET srv) (stored_path w file)
    (buffer file) (mimetype file).

(** The one storage call of the handler, with its answer. *)
Definition storage_call (srv : Server) (w : World) (file : File) : Event :=
  EStorageUpload (STORAGE_BUCKET srv) (stored_path w file)
    (buffer file) (mimetype file) (storage_answer srv w file).

Definition stored_url (srv : Server) (w : World) (file : File) : string :=
  storage_getPublicUrl w (STORAGE_BUCKET srv) (stored_path w file).

(** The record the handler inserts: its timestamp is the second clock
    read, made after the storage call returned. *)
Definition record_of (srv : Server) (w : World) (req : Request) (file : File)
    : ImageRecord :=
  imageRecord req file (stored_path w file) (clock w 1) (stored_url srv w file).

(** The one insert call of the handler, with its answer. *)
Definition insert_call (srv : Server) (w : World) (req : Request) (file : File)
    : Event :=
  EDbInsert (record_of srv w req file)
    (images_insert w (record_of srv w req file)).

(** [res.status(c).json({ error: m })]. *)
Definition error_response (c : N) (m : string) : Response :=
  status_json c [ ("error", JStr m) ].

(** The [error] texts the module sends (lines 287, 293, 303, 320, 366,
    375, 380, 384, 389). *)
Definition error_messages : list string :=
  [ "Failed to fetch images";
    "Internal server error";
    "No image file provided";
    "Failed to upload image to storage";
    "Internal server error during upload";
    "File too large. Maximum size is 10MB.";
    "Only image files are allowed";
    "Endpoint not found" ].

(** One constructor per path a request can take through [app]: the
    response sent and the calls made on that path. *)
Inductive Served (srv : Server) (w : World) (req : Request)
    : Response -> list Event -> Prop :=
| Served_preflight :
    method req = OPTIONS ->
    Served srv w req {| status := 204; body := [] |} []
| Served_health :
    method req <> OPTIONS ->
    route_matches GET "/health" req = true ->
    Served srv w req
      (json [ ("status", JStr "ok");
              ("message", JStr "x402 Image Uploader Service is running");
              ("timestamp", JIso (clock w 0)) ])
      []
| Served_images (rows : list Row) :
    method req <> OPTIONS ->
    route_matches GET "/health" req = false ->
    route_matches GET "/images" req = true ->
    images_select w images_query = Resolved (Data rows) ->
    Served srv w req
      (json [ ("images", JArr (map json_of_row rows)) ])
      [ EDbSelect images_query (Resolved (Data rows)) ]
| Served_images_error (e : string) :
    method req <> OPTIONS ->
    route_matches GET "/health" req = false ->
    route_matches GET "/images" req = true ->
    images_select w images_query = Resolved (Failure e) ->
    Served srv w req
      (error_response 500 "Failed to fetch images")
      [ EDbSelect images_query (Resolved (Failure e));
        EConsoleError "Database error:" ]
| Served_images_rejected (e : string) :
    method req <> OPTIONS ->
    route_matches GET "/health" req = false ->
    route_matches GET "/images" req = true ->
    images_select w images_query = Rejected e ->
    Served srv w req
      (error_response 500 "Internal server error")
      [ EDbSelect images_query (Rejected e); EConsoleError "Server error:" ]
| Served_not_found :
    method req <> OPTIONS ->
    route_matches GET "/health" req = false ->
    route_matches GET "/images" req = false ->
    route_matches POST "/upload" req = false ->
    Served srv w req (error_response 404 "Endpoint not found") []
| Served_no_credential :
    route_matches POST "/upload" req = true ->
    headers req !! "x-payment" = None ->
    Served srv w req (payment_required (payTo srv) (upload_route srv)) []
| Served_bad_credential (credential : string) :
    route_matches POST "/upload" req = true ->
    headers req !! "x-payment" = Some credential ->
    facilitator_verify w credential <> Resolved true ->
    Served srv w req (payment_required (payTo srv) (upload_route srv))
      [ EVerify credential (facilitator_verify w credential) ]
| Served_no_file (credential : string) :
    paid w req credential ->
    image req = None ->
    Served srv w req
      (error_response 400 "No image file provided")
      [ EVerify credential (Resolved true) ]
| Served_not_image (credential : string) (file : File) :
    paid w req credential ->
    image req = Some file ->
    JS.startsWith (mimetype file) "image/" = false ->
    Served srv w req
      (error_response 400 "Only image files are allowed")
      [ EVerify credential (Resolved true) ]
| Served_too_large (credential : string) (file : File) :
    paid w req credential ->
    image req = Some file ->
    JS.startsWith (mimetype file) "image/" = true ->
    fileSize (upload srv) < size file ->
    Served srv w req
      (error_response 400 "File too large. Maximum size is 10MB.")
      [ EVerify credential (Resolved true) ]
| Served_storage_error (credential : string) (file : File) (e : string) :
    paid w req credential ->
    accepted srv req file ->
    storage_answer srv w file = Resolved (Failure e) ->
    Served srv w req
      (error_response 500 "Failed to upload image to storage")
      [ EVerify credential (Resolved true);
        storage_call srv w file;
        EConsoleError "Upload error:" ]
| Served_storage_rejected (credential : string) (file : File) (e : string) :
    paid w req credential ->
    accepted srv req file ->
    storage_answer srv w file = Rejected e ->
    Served srv w req
      (error_response 500 "Internal server error during upload")
      [ EVerify credential (Resolved true);
        storage_call srv w file;
        EConsoleError "Upload error:" ]
| Served_recorded (credential : string) (file : File) (dbData : Row) :
    paid w req credential ->
    accepted srv req file ->
    storage_answer srv w file = Resolved (Data tt) ->
    images_insert w (record_of srv w req file) = Resolved (Data dbData) ->
    Served srv w req
      (status_json 201
         [ ("message", JStr "Image uploaded successfully");
           ("id", JStr (id dbData));
           ("url", JStr (stored_url srv w file));
           ("path", JStr (stored_path w file));
           ("uploadedAt", JIso (uploaded_at (fields dbData))) ])
      [ EVerify credential (Resolved true);
        storage_call srv w file;
        insert_call srv w req file ]
| Served_unrecorded (credential : string) (file : File) (e : string) :
    paid w req credential ->
    accepted srv req file ->
    storage_answer srv w file = Resolved (Data tt) ->
    images_insert w (record_of srv w req file) = Resolved (Failure e) ->
    Served srv w req
      (status_json 201
         [ ("message", JStr "Image uploaded successfully (metadata save failed)");
           ("url", JStr (stored_url srv w file));
           ("path", JStr (stored_path w file)) ])
      [ EVerify credential (Resolved true);
        storage_call srv w file;
        insert_call srv w req file;
        EConsoleError "Database error:" ]
| Served_insert_rejected (credential : string) (file : File) (e : string) :
    paid w req credential ->
    accepted srv req file ->
    storage_answer srv w file = Resolved (Data tt) ->
    images_insert w (record_of srv w req file) = Rejected e ->
    Served srv w req
      (error_response 500 "Internal server error during upload")
      [ EVerify credential (Resolved true);
        storage_call srv w file;
        insert_call srv w req file;
        EConsoleError "Upload error:" ].

(** Calls that change what is stored. *)
Definition is_write (e : Event) : bool :=
  is_storage_write e || is_db_insert e.

(** ** Uploads one after the other *)




(** ** Proof steps for served requests *)

(** Unfolds the validator, the handler and the calls they make. *)
Ltac run_handler :=
  unfold validate_and_handle, single, fileFilter, upload_handler, error_middleware,
    try_catch, bind, ret, date_now, console_error, emit,
    supabase_storage_upload, supabase_storage_getPublicUrl,
    supabase_images_insert, await, after_gate;
  cbn [reads trace fst snd List.app is_file_size_error message].

(** Splits [e ∈ [e1; ...; en]] into its cases, dropping those where the
    constructors differ. *)
Ltac split_trace H :=
  repeat (apply elem_of_cons in H as [H|H]; [try discriminate H|]);
  try (apply elem_of_nil in H; contradiction).

(** The same with the handler's calls spelled out. *)
Ltac split_calls H :=
  unfold storage_call, insert_call in H; split_trace H.

(** Finds an element in a list that is written out. *)
Ltac in_list :=
  repeat first [ apply list_elem_of_here | apply list_elem_of_further ].

(** ** Sample deployment and requests *)

Module Example.

Definition env : gmap string string :=
  list_to_map [ ("FACILITATOR_URL", "https://x402.org/facilitator");
                ("ADDRESS", "0x209693Bc6afc0C5328bA36FaF03C514EF312287C");
                ("SUPABASE_URL", "https://abcd.supabase.co");
                ("SUPABASE_KEY", "service-role-key");
                ("STORAGE_BUCKET", "images") ].

Definition srv : Server :=
  {| PORT := "3001";
     facilitatorUrl := "https://x402.org/facilitator";
     payTo := "0x209693Bc6afc0C5328bA36FaF03C514EF312287C";
     network := "base-sepolia";
     supabaseUrl := "https://abcd.supabase.co";
     supabaseServiceKey := "service-role-key";
     STORAGE_BUCKET := Some "images";
     upload := {| fileSize := 5242880 |} |}.

(** The server of [env] with [PORT] set to 8080 and a variable the module
    does not read. *)
Definition env_8080 : gmap string string :=
  <["MAX_FILE_SIZE" := "10485760"]> (<["PORT" := "8080"]> env).

Definition srv_8080 : Server :=
  {| PORT := "8080";
     facilitatorUrl := facilitatorUrl srv;
     payTo := payTo srv;
     network := network srv;
     supabaseUrl := supabaseUrl srv;
     supabaseServiceKey := supabaseServiceKey srv;
     STORAGE_BUCKET := STORAGE_BUCKET srv;
     upload := {| fileSize := 5242880 |} |}.

(** Every collaborator answers; the facilitator accepts the credential
    ["paid"]; the table accepts rows when [db_up]. *)
Definition world (db_up : bool) : World :=
  {| clock := fun n => 1700000000000 + N.of_nat n;
     facilitator_verify := fun credential => Resolved (String.eqb credential "paid");
     storage_upload := fun _ _ _ _ => Resolved (Data tt);
     storage_getPublicUrl := fun _ p => "https://cdn.example/images/" +:+ p;
     images_insert := fun r =>
       if db_up
       then Resolved (Data {| id := "7f1c-" +:+ JS.show (file_size r); fields := r |})
       else Resolved (Failure "relation images does not exist");
     images_select := fun _ => Resolved (Failure "relation images does not exist") |}.

(** Facilitator, object store and database are all unreachable. *)
Definition unreachable : World :=
  {| clock := fun n => 1700000000000 + N.of_nat n;
     facilitator_verify := fun _ => Rejected "ECONNREFUSED";
     storage_upload := fun _ _ _ _ => Rejected "ECONNREFUSED";
     storage_getPublicUrl := fun _ p => "https://cdn.example/images/" +:+ p;
     images_insert := fun _ => Rejected "ECONNREFUSED";
     images_select := fun _ => Rejected "ECONNREFUSED" |}.


Definition filled (n : N) (b : Byte.byte) : Buffer :=
  {| byteLength := n; byteAt := fun _ => b |}.

Definition cat_png : File :=
  {| originalname := "cat.png"; mimetype := "image/png";
     buffer := filled 67 Byte.x89 |}.

Definition dog_jpg : File :=
  {| originalname := "dog.jpg"; mimetype := "image/jpeg";
     buffer := filled 70 Byte.xff |}.

Definition notes_txt : File :=
  {| originalname := "notes.txt"; mimetype := "text/plain";
     buffer := filled 12 Byte.x41 |}.

Definition big_png : File :=
  {| originalname := "big.png"; mimetype := "image/png";
     buffer := filled (6 * 1024 * 1024) Byte.x00 |}.

Definition post_upload (hs : list (string * string)) (file : File) : Request :=
  {| method := POST; url := "/upload";
     headers := list_to_map hs; image := Some file |}.

Definition get (p : string) : Request :=
  {| method := GET; url := p; headers := ∅; image := None |}.

Definition row (i : string) (t : N) : Row :=
  {| id := i;
     fields := {| user_address := None; path := "uploads/" +:+ i;
                  mime := "image/png"; uploaded_at := t;
                  public_url := "https://cdn.example/images/uploads/" +:+ i;
                  file_size := 67; original_name := i |} |}.



(** The object store answers every upload with an error. *)
Definition bucket_missing : World :=
  {| clock := clock (world true);
     facilitator_verify := facilitator_verify (world true);
     storage_upload := fun _ _ _ _ => Resolved (Failure "Bucket not found");
     storage_getPublicUrl := storage_getPublicUrl (world true);
     images_insert := images_insert (world true);
     images_select := images_select (world true) |}.

(** Calls to the table throw: the promise rejects instead of resolving
    with an error. *)
Definition table_throws : World :=
  {| clock := clock (world true);
     facilitator_verify := facilitator_verify (world true);
     storage_upload := storage_upload (world true);
     storage_getPublicUrl := storage_getPublicUrl (world true);
     images_insert := fun _ => Rejected "fetch failed";
     images_select := fun _ => Rejected "fetch failed" |}.


End Example.

(** ** Start-up *)

Section Startup.

Lemma truthy_Some_nonempty (v : option string) :
  JS.truthy v = true -> exists s, v = Some s /\ s <> "".
Proof.
  destruct v as [s|]; simpl; [|discriminate].
  intros H. exists s. split; [reflexivity|].
  intros ->. discriminate.
Qed.

Lemma or_default_nonempty (v : option string) (d : string) :
  d <> "" -> JS.or_default v d <> "".
Proof.
  intros Hd. unfold JS.or_default.
  destruct v as [s|]; [|exact Hd].
  destruct (JS.truthy (Some s)) eqn:E; [|exact Hd].
  apply truthy_Some_nonempty in E as (s' & [= <-] & Hs). exact Hs.
Qed.

(** What a server that got past environment validation looks like. *)
Lemma startup_listening (env : gmap string string) (srv : Server) :
  startup env = Listening srv ->
  payTo srv <> "" /\ facilitatorUrl srv <> "" /\ network srv <> "" /\
  fileSize (upload srv) = 5242880.
Proof.
  unfold startup.
  destruct (JS.truthy (env !! "FACILITATOR_URL")) eqn:Ef; simpl; [|discriminate].
  destruct (JS.truthy (env !! "ADDRESS")) eqn:Ea; simpl; [|discriminate].
  destruct (createClient _ _) as [thrown|[u k]]; [discriminate|].
  intros [= <-]. simpl.
  apply truthy_Some_nonempty in Ef as (f & -> & Hf).
  apply truthy_Some_nonempty in Ea as (a & -> & Ha).
  repeat split; try assumption.
  apply or_default_nonempty. discriminate.
Qed.

End Startup.



(** C7, as stated, fails: no two environments start servers with
    different upload ceilings. *)
Lemma upload_ceiling_not_configurable : ~ ceiling_configurable.
Proof.
  intros (env1 & env2 & srv1 & srv2 & H1 & H2 & Hne).
  apply startup_listening in H1 as (_ & _ & _ & H1).
  apply startup_listening in H2 as (_ & _ & _ & H2).
  congruence.
Qed.

(** C7 (amended): the upload ceiling is a single value fixed in the
    module and not taken from the configuration: every two environments
    the server starts with give the same ceiling, and the validator's
    verdict on a file is the same under both. *)
Theorem upload_ceiling_fixed
    (env1 env2 : gmap string string) (srv1 srv2 : Server) (file : File) :
  startup env1 = Listening srv1 ->
  startup env2 = Listening srv2 ->
  fileSize (upload srv1) = fileSize (upload srv2) /\
  single (upload srv1) fileFilter (Some file)
  = single (upload srv2) fileFilter (Some file).
Proof.
  intros H1 H2.
  destruct (startup_listening env1 srv1 H1) as (_ & _ & _ & E1).
  destruct (startup_listening env2 srv2 H2) as (_ & _ & _ & E2).
  split; [congruence|].
  unfold single. rewrite E1, E2. reflexivity.
Qed.

Lemma upload_ceiling_fixed_witness :
  fileSize (upload Example.srv) = fileSize (upload Example.srv_8080) /\
  single (upload Example.srv) fileFilter (Some Example.big_png)
  = single (upload Example.srv_8080) fileFilter (Some Example.big_png).
Proof.
  apply (upload_ceiling_fixed Example.env Example.env_8080
           Example.srv Example.srv_8080 Example.big_png).
  - vm_compute. reflexivity.
  - vm_compute. reflexivity.
Defined.

(** ** Routing *)

Section Routing.

Variable req : Request.

Lemma post_route_method (p : string) :
  route_matches POST p req = true -> method req = POST.
Proof.
  unfold route_matches. destruct (method req); simpl; congruence.
Qed.

Lemma post_route_gated (p : string) :
  gated POST p req = route_matches POST p req.
Proof.
  unfold gated, route_matches. destruct (method req); reflexivity.
Qed.

Lemma get_route_method (p : string) :
  route_matches GET p req = true -> method req = GET \/ method req = HEAD.
Proof.
  unfold route_matches. destruct (method req); simpl; auto; congruence.
Qed.

Lemma upload_literal :
  method req = POST -> url req = "/upload" ->
  route_matches POST "/upload" req = true.
Proof.
  intros Hm Hu. unfold route_matches. rewrite Hm, Hu. reflexivity.
Qed.

Lemma health_literal :
  method req = GET -> url req = "/health" ->
  route_matches GET "/health" req = true.
Proof.
  intros Hm Hu. unfold route_matches. rewrite Hm, Hu. reflexivity.
Qed.


(** A request for the upload route is for no other route. *)
Lemma upload_route_only :
  route_matches POST "/upload" req = true ->
  route_matches GET "/health" req = false /\
  route_matches GET "/images" req = false.
Proof.
  intros H. apply post_route_method in H.
  unfold route_matches. rewrite H. split; reflexivity.
Qed.

Lemma cors_passes : method req <> OPTIONS -> cors req = Next.
Proof.
  unfold cors. destruct (method req); congruence.
Qed.

End Routing.

(** ** The payment gate *)

Section Gate.

Variable srv : Server.
Variable w : World.

Lemma find_route_upload (req : Request) :
  route_matches POST "/upload" req = true ->
  find_route (routes_of srv) req = Some (upload_route srv).
Proof.
  intros H. unfold routes_of, find_route.
  rewrite post_route_gated, H. reflexivity.
Qed.

Lemma find_route_other (req : Request) :
  route_matches POST "/upload" req = false ->
  find_route (routes_of srv) req = None.
Proof.
  intros H. unfold routes_of, find_route.
  rewrite post_route_gated, H. reflexivity.
Qed.

(** Requests for other routes pass the gate without a call. *)
Lemma gate_skips (req : Request) :
  route_matches POST "/upload" req = false ->
  forall s, paymentMiddleware (payTo srv) (routes_of srv) req w s
            = (Resolved Next, s).
Proof.
  intros H s. unfold paymentMiddleware.
  rewrite (find_route_other req H). reflexivity.
Qed.

(** Without a valid credential the gate sends the challenge and calls
    nothing but the facilitator. *)
Lemma gate_challenges (req : Request) (s : St) :
  route_matches POST "/upload" req = true ->
  ~ valid_credential w req ->
  exists s',
    paymentMiddleware (payTo srv) (routes_of srv) req w s
    = (Resolved (Sent (payment_required (payTo srv) (upload_route srv))), s') /\
    reads s' = reads s /\
    exists calls, trace s' = trace s ++ calls /\ no_writes calls = true.
Proof.
  intros Hr Hinv. unfold paymentMiddleware.
  rewrite (find_route_upload req Hr).
  destruct (headers req !! "x-payment") as [c|] eqn:Hc.
  - unfold try_catch, bind, verify, await, ret.
    destruct (facilitator_verify w c) as [[|]|e] eqn:Hv.
    + exfalso. apply Hinv. exists c. split; assumption.
    + eexists. split; [reflexivity|]. split; [reflexivity|].
      eexists. split; reflexivity.
    + eexists. split; [reflexivity|]. split; [reflexivity|].
      eexists. split; reflexivity.
  - eexists. split; [reflexivity|]. split; [reflexivity|].
    exists []. split; [symmetry; apply app_nil_r | reflexivity].
Qed.

(** With a valid credential the request passes, after one call to the
    facilitator. *)
Lemma gate_passes (req : Request) (s : St) (credential : string) :
  route_matches POST "/upload" req = true ->
  headers req !! "x-payment" = Some credential ->
  facilitator_verify w credential = Resolved true ->
  paymentMiddleware (payTo srv) (routes_of srv) req w s
  = (Resolved Next,
     {| reads := reads s;
        trace := trace s ++ [EVerify credential (Resolved true)] |}).
Proof.
  intros Hr Hc Hv. unfold paymentMiddleware.
  rewrite (find_route_upload req Hr), Hc.
  unfold try_catch, bind, verify, await, ret. rewrite Hv. reflexivity.
Qed.

(** What [app] comes to once [cors()] has passed the request on. *)
Lemma app_behind_cors (req : Request) :
  method req <> OPTIONS ->
  app srv req
  = (let! gate := paymentMiddleware (payTo srv) (routes_of srv) req in
     and_then gate (routes srv req)).
Proof.
  intros H. unfold app. rewrite (cors_passes req H). reflexivity.
Qed.

End Gate.

(** C8: every [GET /health] request is answered 200 with [status] equal
    to ["ok"], whatever the facilitator, the object store and the
    database would answer: serving it calls none of them. *)
Theorem health_always_ok (srv : Server) (w : World) (req : Request) :
  method req = GET -> url req = "/health" ->
  exists r,
    serve srv w req = (Resolved r, []) /\
    status r = 200 /\
    member "status" (body r) = Some (JStr "ok").
Proof.
  intros Hm Hu.
  assert (Hopt : method req <> OPTIONS) by congruence.
  assert (Hup : route_matches POST "/upload" req = false)
    by (unfold route_matches; rewrite Hm; reflexivity).
  unfold serve. rewrite (app_behind_cors srv req Hopt). unfold bind.
  rewrite (gate_skips srv w req Hup St0). unfold and_then, routes.
  rewrite (health_literal req Hm Hu).
  eexists. split; [reflexivity|]. split; reflexivity.
Qed.

Lemma health_always_ok_witness :
  exists r,
    serve Example.srv Example.unreachable (Example.get "/health")
    = (Resolved r, []) /\
    status r = 200 /\
    member "status" (body r) = Some (JStr "ok").
Proof.
  apply (health_always_ok Example.srv Example.unreachable
           (Example.get "/health")); reflexivity.
Defined.

(** C2: on a server that passed environment validation, a
    [POST /upload] request without a valid payment credential is answered
    402; the body lists a payment requirement whose [network] and [payTo]
    are non-empty; neither the storage upload nor the table insert is
    called. *)
Theorem unpaid_upload_challenged
    (env : gmap string string) (srv : Server) (w : World) (req : Request) :
  startup env = Listening srv ->
  method req = POST -> url req = "/upload" ->
  ~ valid_credential w req ->
  exists r tr entry net payee,
    serve srv w req = (Resolved r, tr) /\
    status r = 402 /\
    member "accepts" (body r) = Some (JArr [JObj entry]) /\
    member "network" entry = Some (JStr net) /\ net <> "" /\
    member "payTo" entry = Some (JStr payee) /\ payee <> "" /\
    no_writes tr = true.
Proof.
  intros Hstart Hm Hu Hinv.
  destruct (startup_listening env srv Hstart) as (Hpay & _ & Hnet & _).
  assert (Hopt : method req <> OPTIONS) by congruence.
  destruct (gate_challenges srv w req St0 (upload_literal req Hm Hu) Hinv)
    as (s' & Hgate & _ & calls & Htr & Hcalls).
  unfold serve. rewrite (app_behind_cors srv req Hopt). unfold bind.
  rewrite Hgate. unfold and_then, ret.
  simpl in Htr. rewrite Htr.
  exists (payment_required (payTo srv) (upload_route srv)), calls.
  eexists. exists (network srv), (payTo srv).
  split; [reflexivity|]. split; [reflexivity|]. split; [reflexivity|].
  split; [reflexivity|]. split; [exact Hnet|].
  split; [reflexivity|]. split; [exact Hpay|exact Hcalls].
Qed.

Lemma unpaid_upload_challenged_witness :
  exists r tr entry net payee,
    serve Example.srv (Example.world true)
      (Example.post_upload [("x-user-address", "test-user-123")] Example.cat_png)
    = (Resolved r, tr) /\
    status r = 402 /\
    member "accepts" (body r) = Some (JArr [JObj entry]) /\
    member "network" entry = Some (JStr net) /\ net <> "" /\
    member "payTo" entry = Some (JStr payee) /\ payee <> "" /\
    no_writes tr = true.
Proof.
  apply (unpaid_upload_challenged Example.env Example.srv (Example.world true)
           (Example.post_upload [("x-user-address", "test-user-123")]
              Example.cat_png)).
  - vm_compute. reflexivity.
  - reflexivity.
  - reflexivity.
  - intros (c & Hc & _). vm_compute in Hc. discriminate Hc.
Defined.

(** ** The upload route *)

Lemma no_writes_no_upload (tr : list Event) bucket p content ct ans :
  no_writes tr = true -> EStorageUpload bucket p content ct ans ∈ tr -> False.
Proof.
  unfold no_writes. rewrite forallb_forall. intros Hall Hin.
  apply list_elem_of_In in Hin. apply Hall in Hin. discriminate.
Qed.

Lemma no_writes_no_insert (tr : list Event) record ans :
  no_writes tr = true -> EDbInsert record ans ∈ tr -> False.
Proof.
  unfold no_writes. rewrite forallb_forall. intros Hall Hin.
  apply list_elem_of_In in Hin. apply Hall in Hin. discriminate.
Qed.

Section Upload.

Variable srv : Server.
Variable w : World.
Variable req : Request.
Hypothesis Hroute : route_matches POST "/upload" req = true.

Lemma not_preflight : method req <> OPTIONS.
Proof.
  rewrite (post_route_method req _ Hroute). discriminate.
Qed.

Lemma credential_dec : valid_credential w req \/ ~ valid_credential w req.
Proof.
  unfold valid_credential.
  destruct (headers req !! "x-payment") as [c|] eqn:Hc.
  - destruct (facilitator_verify w c) as [[|]|e] eqn:Hv.
    + left. exists c. split; [reflexivity|assumption].
    + right. intros (c' & [= <-] & H). congruence.
    + right. intros (c' & [= <-] & H). congruence.
  - right. intros (c' & H & _). discriminate.
Qed.

Lemma serve_unpaid :
  ~ valid_credential w req ->
  exists calls,
    serve srv w req
    = (Resolved (payment_required (payTo srv) (upload_route srv)), calls) /\
    no_writes calls = true.
Proof.
  intros Hinv.
  destruct (gate_challenges srv w req St0 Hroute Hinv)
    as (s' & Hgate & _ & calls & Htr & Hcalls).
  unfold serve. rewrite (app_behind_cors srv req not_preflight). unfold bind.
  rewrite Hgate. unfold and_then, ret.
  simpl in Htr. rewrite Htr. exists calls. split; [reflexivity|exact Hcalls].
Qed.

Lemma serve_paid (credential : string) :
  headers req !! "x-payment" = Some credential ->
  facilitator_verify w credential = Resolved true ->
  serve srv w req
  = (fst (validate_and_handle srv req w (after_gate credential)),
     trace (snd (validate_and_handle srv req w (after_gate credential)))).
Proof.
  intros Hc Hv.
  unfold serve. rewrite (app_behind_cors srv req not_preflight). unfold bind.
  rewrite (gate_passes srv w req St0 credential Hroute Hc Hv).
  unfold and_then, routes.
  destruct (upload_route_only req Hroute) as [Hh Hi]. rewrite Hh, Hi, Hroute.
  unfold after_gate. cbn [reads trace app].
  destruct (validate_and_handle srv req w _). reflexivity.
Qed.

(** The filter turns a file away before anything is stored. *)
Lemma rejected_by_filter (file : File) (s : St) :
  image req = Some file ->
  JS.startsWith (mimetype file) "image/" = false ->
  validate_and_handle srv req w s
  = (Resolved (status_json 400 [ ("error", JStr "Only image files are allowed") ]), s).
Proof.
  intros Hf Hmime. unfold validate_and_handle, single, fileFilter.
  rewrite Hf, Hmime. reflexivity.
Qed.

(** So does the size limit, for a file the filter accepts. *)
Lemma rejected_by_limit (file : File) (s : St) :
  image req = Some file ->
  fileSize (upload srv) < size file ->
  exists r,
    validate_and_handle srv req w s = (Resolved r, s) /\ status r = 400.
Proof.
  intros Hf Hsize. unfold validate_and_handle, single, fileFilter.
  rewrite Hf.
  destruct (JS.startsWith (mimetype file) "image/").
  - apply N.ltb_lt in Hsize. rewrite Hsize.
    eexists. split; reflexivity.
  - eexists. split; reflexivity.
Qed.

(** A request turned away by the validator: 402 without a valid
    credential, 400 with one, and then nothing was called after the
    gate; nothing is written either way. *)
Lemma turned_away (rejected : forall s, exists r,
      validate_and_handle srv req w s = (Resolved r, s) /\ status r = 400) :
  exists r tr,
    serve srv w req = (Resolved r, tr) /\
    no_writes tr = true /\
    (valid_credential w req ->
     status r = 400 /\ exists c, tr = [EVerify c (Resolved true)]) /\
    (~ valid_credential w req -> status r = 402).
Proof.
  destruct credential_dec as [Hval | Hinv].
  - destruct Hval as (c & Hc & Hv).
    destruct (rejected (after_gate c)) as (r & E & Hr).
    exists r, (trace (after_gate c)).
    rewrite (serve_paid c Hc Hv), E. simpl.
    split; [reflexivity|]. split; [reflexivity|].
    split; [intros _; split; [exact Hr|exists c; reflexivity]|].
    intros Hinv. exfalso. apply Hinv. exists c. split; assumption.
  - destruct (serve_unpaid Hinv) as (calls & E & Hcalls).
    eexists _, calls. split; [exact E|]. split; [exact Hcalls|].
    split; [intros Hval; contradiction|]. intros _. reflexivity.
Qed.

(** Every way a served upload can have reached the table insert. *)
Lemma insert_reached (out : Outcome Response) (tr : list Event)
    (record : ImageRecord) (ans : Outcome (SupaResult Row)) :
  serve srv w req = (out, tr) ->
  EDbInsert record ans ∈ tr ->
  exists credential file,
    headers req !! "x-payment" = Some credential /\
    image req = Some file /\
    let p := filePath (clock w 0) file in
    let u := storage_getPublicUrl w (STORAGE_BUCKET srv) p in
    record = imageRecord req file p (clock w 1) u /\
    ans = images_insert w record /\
    storage_upload w (STORAGE_BUCKET srv) p (buffer file) (mimetype file)
    = Resolved (Data tt) /\
    (forall bucket p' content ct a,
        EStorageUpload bucket p' content ct a ∈ tr ->
        bucket = STORAGE_BUCKET srv /\ p' = p /\ content = buffer file /\
        ct = mimetype file /\ a = Resolved (Data tt)) /\
    EStorageUpload (STORAGE_BUCKET srv) p (buffer file) (mimetype file)
      (Resolved (Data tt)) ∈ tr /\
    out = Resolved
      match ans with
      | Resolved (Data dbData) =>
          status_json 201
            [ ("message", JStr "Image uploaded successfully");
              ("id", JStr (id dbData));
              ("url", JStr u);
              ("path", JStr p);
              ("uploadedAt", JIso (uploaded_at (fields dbData))) ]
      | Resolved (Failure _) =>
          status_json 201
            [ ("message", JStr "Image uploaded successfully (metadata save failed)");
              ("url", JStr u);
              ("path", JStr p) ]
      | Rejected _ =>
          status_json 500 [ ("error", JStr "Internal server error during upload") ]
      end.
Proof.
  intros Hserve Hins.
  destruct credential_dec as [(c & Hc & Hv) | Hinv].
  2:{ destruct (serve_unpaid Hinv) as (calls & E & Hcalls).
      rewrite E in Hserve. injection Hserve as <- <-.
      destruct (no_writes_no_insert _ _ _ Hcalls Hins). }
  rewrite (serve_paid c Hc Hv) in Hserve.
  revert Hserve. run_handler.
  destruct (image req) as [file|].
  2:{ simpl. intros [= <- <-]. split_trace Hins. }
  destruct (JS.startsWith (mimetype file) "image/").
  2:{ simpl. intros [= <- <-]. split_trace Hins. }
  destruct (fileSize (upload srv) <? size file).
  { simpl. intros [= <- <-]. split_trace Hins. }
  destruct (storage_upload w _ _ _ _) as [[[]|ue]|ue] eqn:Hs; cbn.
  2,3: intros [= <- <-]; split_trace Hins.
  exists c, file. split; [exact Hc|]. split; [reflexivity|]. cbn zeta.
  revert Hserve.
  destruct (images_insert w _) as [[dbData|de]|de] eqn:Hi; cbn;
    intros [= <- <-]; split_trace Hins; injection Hins as -> ->.
  all: split; [reflexivity|].
  all: split; [symmetry; exact Hi|].
  all: split; [exact Hs|].
  all: split;
    [ intros bucket p' content ct a Hup; split_trace Hup;
      injection Hup as -> -> -> -> ->; repeat split; reflexivity |].
  all: split; [set_solver | reflexivity].
Qed.

End Upload.

(** What [v || null] leaves of a header. *)
Lemma or_null_spec (v : option string) :
  (forall a, v = Some a -> a <> "" -> JS.or_null v = Some a) /\
  (v = None \/ v = Some "" -> JS.or_null v = None).
Proof.
  unfold JS.or_null, JS.truthy. split.
  - intros a -> Ha. destruct (String.eqb_spec a ""); [contradiction|reflexivity].
  - intros [-> | ->]; reflexivity.
Qed.

(** C1: on [POST /upload], when the storage upload succeeded and the
    table insert reported an error, the response is 201; its body has the
    public [url] and the storage [path] of that upload, no [id] and no
    [error]. *)
Theorem stored_but_unrecorded_is_201
    (srv : Server) (w : World) (req : Request)
    (out : Outcome Response) (tr : list Event)
    (bucket : option string) (p : string) (content : Buffer) (ct : string)
    (record : ImageRecord) (dbError : string) :
  method req = POST -> url req = "/upload" ->
  serve srv w req = (out, tr) ->
  EStorageUpload bucket p content ct (Resolved (Data tt)) ∈ tr ->
  EDbInsert record (Resolved (Failure dbError)) ∈ tr ->
  exists r,
    out = Resolved r /\ status r = 201 /\
    member "url" (body r) = Some (JStr (storage_getPublicUrl w bucket p)) /\
    member "path" (body r) = Some (JStr p) /\
    member "id" (body r) = None /\
    member "error" (body r) = None.
Proof.
  intros Hm Hu Hserve Hup Hins.
  destruct (insert_reached srv w req (upload_literal req Hm Hu) out tr record _ Hserve Hins)
    as (c & file & _ & _ & _ & _ & _ & Hsame & _ & ->).
  destruct (Hsame _ _ _ _ _ Hup) as (-> & -> & _).
  eexists. split; [reflexivity|]. repeat split; reflexivity.
Qed.

Lemma stored_but_unrecorded_is_201_witness :
  exists r,
    fst (serve Example.srv (Example.world false)
           (Example.post_upload [("x-payment", "paid")] Example.cat_png))
    = Resolved r /\ status r = 201 /\
    member "url" (body r)
    = Some (JStr "https://cdn.example/images/uploads/1700000000000-cat.png") /\
    member "path" (body r) = Some (JStr "uploads/1700000000000-cat.png") /\
    member "id" (body r) = None /\
    member "error" (body r) = None.
Proof.
  apply (stored_but_unrecorded_is_201 Example.srv (Example.world false)
           (Example.post_upload [("x-payment", "paid")] Example.cat_png)
           _ (snd (serve Example.srv (Example.world false)
                (Example.post_upload [("x-payment", "paid")] Example.cat_png)))
           (Some "images") "uploads/1700000000000-cat.png"
           (buffer Example.cat_png) "image/png"
           (imageRecord (Example.post_upload [("x-payment", "paid")] Example.cat_png)
              Example.cat_png "uploads/1700000000000-cat.png" 1700000000001
              "https://cdn.example/images/uploads/1700000000000-cat.png")
           "relation images does not exist").
  - reflexivity.
  - reflexivity.
  - vm_compute. reflexivity.
  - vm_compute. apply list_elem_of_further, list_elem_of_here.
  - vm_compute. do 2 apply list_elem_of_further. apply list_elem_of_here.
Defined.

(** C3 (amended): a [POST /upload] request whose file has a MIME type
    that does not start with ["image/"] is answered 400 when it carries a
    valid payment credential, and then nothing is called after the
    facilitator; without a valid credential it is answered 402.  In both
    cases neither the storage upload nor the table insert is called. *)
Theorem non_image_rejected
    (srv : Server) (w : World) (req : Request) (file : File) :
  method req = POST -> url req = "/upload" ->
  image req = Some file ->
  JS.startsWith (mimetype file) "image/" = false ->
  exists r tr,
    serve srv w req = (Resolved r, tr) /\
    no_writes tr = true /\
    (valid_credential w req ->
     status r = 400 /\ exists c, tr = [EVerify c (Resolved true)]) /\
    (~ valid_credential w req -> status r = 402).
Proof.
  intros Hm Hu Hf Hmime.
  apply (turned_away srv w req (upload_literal req Hm Hu)).
  intros s. eexists. split.
  - apply (rejected_by_filter srv w req file s Hf Hmime).
  - reflexivity.
Qed.

Lemma non_image_rejected_witness :
  exists r tr,
    serve Example.srv (Example.world true)
      (Example.post_upload [("x-payment", "paid")] Example.notes_txt)
    = (Resolved r, tr) /\
    no_writes tr = true /\
    (valid_credential (Example.world true)
       (Example.post_upload [("x-payment", "paid")] Example.notes_txt) ->
     status r = 400 /\ exists c, tr = [EVerify c (Resolved true)]) /\
    (~ valid_credential (Example.world true)
       (Example.post_upload [("x-payment", "paid")] Example.notes_txt) ->
     status r = 402).
Proof.
  apply (non_image_rejected Example.srv (Example.world true)
           (Example.post_upload [("x-payment", "paid")] Example.notes_txt)
           Example.notes_txt); reflexivity.
Defined.

(** C3, as stated, fails: a text file posted without a payment
    credential is answered 402, not 400. *)
Lemma non_image_unpaid_is_402 :
  image (Example.post_upload [] Example.notes_txt) = Some Example.notes_txt /\
  JS.startsWith (mimetype Example.notes_txt) "image/" = false /\
  exists r,
    serve Example.srv (Example.world true)
      (Example.post_upload [] Example.notes_txt)
    = (Resolved r, []) /\
    status r = 402 /\ status r <> 400.
Proof.
  split; [reflexivity|]. split; [reflexivity|].
  eexists. split; [vm_compute; reflexivity|].
  split; [reflexivity|discriminate].
Qed.

(** C4 (amended): a [POST /upload] request whose file is larger than the
    ceiling is answered 400 when it carries a valid payment credential,
    and then nothing is called after the facilitator: the handler body
    does not run; without a valid credential it is answered 402.  In both
    cases the storage upload is not called. *)
Theorem oversized_rejected
    (srv : Server) (w : World) (req : Request) (file : File) :
  method req = POST -> url req = "/upload" ->
  image req = Some file ->
  fileSize (upload srv) < size file ->
  exists r tr,
    serve srv w req = (Resolved r, tr) /\
    no_writes tr = true /\
    (valid_credential w req ->
     status r = 400 /\ exists c, tr = [EVerify c (Resolved true)]) /\
    (~ valid_credential w req -> status r = 402).
Proof.
  intros Hm Hu Hf Hsize.
  apply (turned_away srv w req (upload_literal req Hm Hu)).
  intros s. apply (rejected_by_limit srv w req file s Hf Hsize).
Qed.

Lemma oversized_rejected_witness :
  exists r tr,
    serve Example.srv (Example.world true)
      (Example.post_upload [("x-payment", "paid")] Example.big_png)
    = (Resolved r, tr) /\
    no_writes tr = true /\
    (valid_credential (Example.world true)
       (Example.post_upload [("x-payment", "paid")] Example.big_png) ->
     status r = 400 /\ exists c, tr = [EVerify c (Resolved true)]) /\
    (~ valid_credential (Example.world true)
       (Example.post_upload [("x-payment", "paid")] Example.big_png) ->
     status r = 402).
Proof.
  apply (oversized_rejected Example.srv (Example.world true)
           (Example.post_upload [("x-payment", "paid")] Example.big_png)
           Example.big_png); reflexivity.
Defined.

(** C4, as stated, fails: an oversized image posted without a payment
    credential is answered 402, not 400. *)
Lemma oversized_unpaid_is_402 :
  image (Example.post_upload [] Example.big_png) = Some Example.big_png /\
  fileSize (upload Example.srv) < size Example.big_png /\
  exists r,
    serve Example.srv (Example.world true)
      (Example.post_upload [] Example.big_png)
    = (Resolved r, []) /\
    status r = 402 /\ status r <> 400.
Proof.
  split; [reflexivity|]. split; [reflexivity|].
  eexists. split; [vm_compute; reflexivity|].
  split; [reflexivity|discriminate].
Qed.

(** C10 (amended): the record handed to the table insert is determined
    by the request: [user_address] is the [x-user-address] header when
    that header is present and not empty, and null when it is absent or
    empty; [mime], [file_size] and [original_name] are the file's MIME
    type, byte size and client-supplied name; [path] is the path every
    storage upload of the request was called with, and that upload
    succeeded. *)
Theorem inserted_record_from_request
    (srv : Server) (w : World) (req : Request)
    (out : Outcome Response) (tr : list Event)
    (record : ImageRecord) (ans : Outcome (SupaResult Row)) :
  method req = POST -> url req = "/upload" ->
  serve srv w req = (out, tr) ->
  EDbInsert record ans ∈ tr ->
  exists file,
    image req = Some file /\
    (forall a, headers req !! "x-user-address" = Some a -> a <> "" ->
               user_address record = Some a) /\
    (headers req !! "x-user-address" = None \/
     headers req !! "x-user-address" = Some "" ->
     user_address record = None) /\
    mime record = mimetype file /\
    file_size record = size file /\
    original_name record = originalname file /\
    EStorageUpload (STORAGE_BUCKET srv) (path record) (buffer file)
      (mimetype file) (Resolved (Data tt)) ∈ tr /\
    (forall bucket p content ct a,
        EStorageUpload bucket p content ct a ∈ tr -> p = path record).
Proof.
  intros Hm Hu Hserve Hins.
  destruct (insert_reached srv w req (upload_literal req Hm Hu) out tr record ans Hserve Hins)
    as (c & file & _ & Hf & -> & _ & _ & Hsame & Hup & _).
  exists file. split; [exact Hf|].
  destruct (or_null_spec (headers req !! "x-user-address")) as [Hsome Hnone].
  split; [exact Hsome|]. split; [exact Hnone|].
  split; [reflexivity|]. split; [reflexivity|]. split; [reflexivity|].
  split; [exact Hup|].
  intros bucket p content ct a H. apply (Hsame _ _ _ _ _ H).
Qed.

Lemma inserted_record_from_request_witness :
  let req := Example.post_upload
               [("x-payment", "paid"); ("x-user-address", "test-user-123")]
               Example.cat_png in
  let record := imageRecord req Example.cat_png "uploads/1700000000000-cat.png"
                  1700000000001
                  "https://cdn.example/images/uploads/1700000000000-cat.png" in
  user_address record = Some "test-user-123" /\
  exists file,
    image req = Some file /\
    mime record = mimetype file /\
    file_size record = size file /\
    original_name record = originalname file /\
    EStorageUpload (Some "images") (path record) (buffer file)
      (mimetype file) (Resolved (Data tt))
    ∈ snd (serve Example.srv (Example.world true) req).
Proof.
  intros req record.
  destruct (inserted_record_from_request Example.srv (Example.world true) req
              (fst (serve Example.srv (Example.world true) req))
              (snd (serve Example.srv (Example.world true) req))
              record
              (images_insert (Example.world true) record))
    as (file & Hf & Hsome & _ & Hmime & Hsize & Hname & Hup & _).
  - reflexivity.
  - reflexivity.
  - vm_compute. reflexivity.
  - vm_compute. do 2 apply list_elem_of_further. apply list_elem_of_here.
  - split.
    + apply Hsome; [reflexivity|discriminate].
    + exists file. repeat split; assumption.
Defined.

(** C10, as stated, fails: with the header [x-user-address] present and
    empty the record's [user_address] is null, not the header value. *)
Lemma empty_user_address_header_is_null :
  let req := Example.post_upload [("x-payment", "paid"); ("x-user-address", "")]
               Example.cat_png in
  headers req !! "x-user-address" = Some "" /\
  exists record row,
    EDbInsert record (Resolved (Data row))
    ∈ snd (serve Example.srv (Example.world true) req) /\
    user_address record = None /\
    user_address record <> headers req !! "x-user-address".
Proof.
  intros req. split; [reflexivity|].
  eexists _, _. split.
  - vm_compute. do 2 apply list_elem_of_further. apply list_elem_of_here.
  - split; [reflexivity|discriminate].
Qed.


(** ** Storage paths *)

Section Paths.

(** Decimal digits followed by a dash: the dash ends the number. *)
Lemma digits_dash_inj (d1 d2 : Decimal.uint) (r1 r2 : string) :
  NilEmpty.string_of_uint d1 +:+ "-" +:+ r1
  = NilEmpty.string_of_uint d2 +:+ "-" +:+ r2 ->
  d1 = d2 /\ r1 = r2.
Proof.
  revert d2.
  induction d1 as [|d1 IH|d1 IH|d1 IH|d1 IH|d1 IH|d1 IH|d1 IH|d1 IH|d1 IH|d1 IH];
    intros [|d2|d2|d2|d2|d2|d2|d2|d2|d2|d2]; cbn; intros H;
    try discriminate H; injection H as H.
  1: split; [reflexivity|exact H].
  all: destruct (IH d2 H) as [-> ->]; split; reflexivity.
Qed.

Lemma fileName_inj (t1 t2 : N) (f1 f2 : File) :
  fileName t1 f1 = fileName t2 f2 ->
  t1 = t2 /\ originalname f1 = originalname f2.
Proof.
  unfold fileName, JS.show. intros H.
  apply digits_dash_inj in H as [Hd Hn].
  split; [apply DecimalN.Unsigned.to_uint_inj, Hd | exact Hn].
Qed.

Lemma filePath_inj (t1 t2 : N) (f1 f2 : File) :
  filePath t1 f1 = filePath t2 f2 ->
  t1 = t2 /\ originalname f1 = originalname f2.
Proof.
  unfold filePath. intros H. apply fileName_inj.
  cbn [String.append] in H. injection H as H. exact H.
Qed.

(** Every storage upload of a served request is for the request's file,
    at the path made from the first clock read and the file's name. *)
Lemma upload_reached (srv : Server) (w : World) (req : Request)
    (out : Outcome Response) (tr : list Event)
    bucket p content ct ans :
  method req = POST -> url req = "/upload" ->
  serve srv w req = (out, tr) ->
  EStorageUpload bucket p content ct ans ∈ tr ->
  exists file, image req = Some file /\ p = filePath (clock w 0) file.
Proof.
  intros Hm Hu Hserve Hup.
  destruct (credential_dec w req) as [(c & Hc & Hv) | Hinv].
  2:{ destruct (serve_unpaid srv w req (upload_literal req Hm Hu) Hinv) as (calls & E & Hcalls).
      rewrite E in Hserve. injection Hserve as <- <-.
      destruct (no_writes_no_upload _ _ _ _ _ _ Hcalls Hup). }
  rewrite (serve_paid srv w req (upload_literal req Hm Hu) c Hc Hv) in Hserve.
  revert Hserve. run_handler.
  destruct (image req) as [file|].
  2:{ simpl. intros [= <- <-]. split_trace Hup. }
  destruct (JS.startsWith (mimetype file) "image/").
  2:{ simpl. intros [= <- <-]. split_trace Hup. }
  destruct (fileSize (upload srv) <? size file).
  { simpl. intros [= <- <-]. split_trace Hup. }
  exists file. split; [reflexivity|]. revert Hserve.
  destruct (storage_upload w _ _ _ _) as [[[]|ue]|ue]; cbn.
  2,3: intros [= <- <-]; split_trace Hup; congruence.
  destruct (images_insert w _) as [[dbData|de]|de]; cbn;
    intros [= <- <-]; split_trace Hup; congruence.
Qed.

End Paths.

(** X15: two storage uploads are sent to the same path exactly when
    the requests read the same millisecond from the clock and their files
    have the same original name. *)
Theorem upload_paths_differ_by_time_or_name
    (srv : Server) (w1 w2 : World) (req1 req2 : Request) (file1 file2 : File)
    (out1 out2 : Outcome Response) (tr1 tr2 : list Event)
    (b1 b2 : option string) (p1 p2 : string) (c1 c2 : Buffer)
    (ct1 ct2 : string) (a1 a2 : Outcome (SupaResult unit)) :
  method req1 = POST -> url req1 = "/upload" -> image req1 = Some file1 ->
  method req2 = POST -> url req2 = "/upload" -> image req2 = Some file2 ->
  serve srv w1 req1 = (out1, tr1) ->
  serve srv w2 req2 = (out2, tr2) ->
  EStorageUpload b1 p1 c1 ct1 a1 ∈ tr1 ->
  EStorageUpload b2 p2 c2 ct2 a2 ∈ tr2 ->
  (p1 = p2 <->
   clock w1 0 = clock w2 0 /\ originalname file1 = originalname file2).
Proof.
  intros Hm1 Hu1 Hf1 Hm2 Hu2 Hf2 Hs1 Hs2 Hup1 Hup2.
  destruct (upload_reached srv w1 req1 out1 tr1 _ _ _ _ _ Hm1 Hu1 Hs1 Hup1)
    as (f1 & Hf1' & ->).
  destruct (upload_reached srv w2 req2 out2 tr2 _ _ _ _ _ Hm2 Hu2 Hs2 Hup2)
    as (f2 & Hf2' & ->).
  assert (f1 = file1) as -> by congruence.
  assert (f2 = file2) as -> by congruence.
  split.
  - apply filePath_inj.
  - intros [Ht Hn]. unfold filePath, fileName. rewrite Ht, Hn. reflexivity.
Qed.

Lemma upload_paths_differ_by_time_or_name_witness :
  "uploads/1700000000000-cat.png" = "uploads/1700000000000-dog.jpg" <->
  clock (Example.world true) 0 = clock (Example.world true) 0 /\
  originalname Example.cat_png = originalname Example.dog_jpg.
Proof.
  apply (upload_paths_differ_by_time_or_name Example.srv
           (Example.world true) (Example.world true)
           (Example.post_upload [("x-payment", "paid")] Example.cat_png)
           (Example.post_upload [("x-payment", "paid")] Example.dog_jpg)
           Example.cat_png Example.dog_jpg
           (fst (serve Example.srv (Example.world true)
                   (Example.post_upload [("x-payment", "paid")] Example.cat_png)))
           (fst (serve Example.srv (Example.world true)
                   (Example.post_upload [("x-payment", "paid")] Example.dog_jpg)))
           (snd (serve Example.srv (Example.world true)
                   (Example.post_upload [("x-payment", "paid")] Example.cat_png)))
           (snd (serve Example.srv (Example.world true)
                   (Example.post_upload [("x-payment", "paid")] Example.dog_jpg)))
           (Some "images") (Some "images")
           "uploads/1700000000000-cat.png" "uploads/1700000000000-dog.jpg"
           (buffer Example.cat_png) (buffer Example.dog_jpg)
           "image/png" "image/jpeg"
           (Resolved (Data tt)) (Resolved (Data tt))).
  1-6: reflexivity.
  - vm_compute. reflexivity.
  - vm_compute. reflexivity.
  - vm_compute. apply list_elem_of_further, list_elem_of_here.
  - vm_compute. apply list_elem_of_further, list_elem_of_here.
Defined.

(** ** Listing: the order of [GET /images] *)

Section Listing.

Variable ord : Row -> Row -> bool.



End Listing.






(** What [GET /images] comes to: one query, three outcomes. *)
Lemma serve_images (srv : Server) (w : World) (req : Request) :
  method req <> OPTIONS ->
  route_matches GET "/health" req = false ->
  route_matches GET "/images" req = true ->
  serve srv w req
  = match images_select w images_query with
    | Resolved (Data rows) =>
        (Resolved (json [ ("images", JArr (map json_of_row rows)) ]),
         [ EDbSelect images_query (images_select w images_query) ])
    | Resolved (Failure _) =>
        (Resolved (error_response 500 "Failed to fetch images"),
         [ EDbSelect images_query (images_select w images_query);
           EConsoleError "Database error:" ])
    | Rejected _ =>
        (Resolved (error_response 500 "Internal server error"),
         [ EDbSelect images_query (images_select w images_query);
           EConsoleError "Server error:" ])
    end.
Proof.
  intros Hopt Hh Hi.
  assert (Hup : route_matches POST "/upload" req = false).
  { destruct (get_route_method req _ Hi) as [Hm | Hm];
      unfold route_matches; rewrite Hm; reflexivity. }
  unfold serve. rewrite (app_behind_cors srv req Hopt). unfold bind.
  rewrite (gate_skips srv w req Hup St0). unfold and_then, routes.
  rewrite Hh, Hi.
  unfold images, try_catch, bind, supabase_images_select_ordered, await,
    console_error, emit, ret. cbn.
  destruct (images_select w images_query) as [[rows|e]|e]; reflexivity.
Qed.



(** ** Every path through the chain *)

Section Chain.

Variable srv : Server.
Variable w : World.
Variable req : Request.

(** The gate's answer to a credential the facilitator does not accept. *)
Lemma serve_bad_credential (credential : string) :
  route_matches POST "/upload" req = true ->
  headers req !! "x-payment" = Some credential ->
  facilitator_verify w credential <> Resolved true ->
  serve srv w req
  = (Resolved (payment_required (payTo srv) (upload_route srv)),
     [EVerify credential (facilitator_verify w credential)]).
Proof.
  intros Hr Hc Hv.
  unfold serve. rewrite (app_behind_cors srv req (not_preflight req Hr)).
  unfold bind, paymentMiddleware.
  rewrite (find_route_upload srv req Hr), Hc.
  unfold try_catch, bind, verify, await, ret. cbn.
  destruct (facilitator_verify w credential) as [[|]|e];
    [contradiction Hv; reflexivity | reflexivity | reflexivity].
Qed.

Lemma serve_no_credential :
  route_matches POST "/upload" req = true ->
  headers req !! "x-payment" = None ->
  serve srv w req
  = (Resolved (payment_required (payTo srv) (upload_route srv)), []).
Proof.
  intros Hr Hc.
  unfold serve. rewrite (app_behind_cors srv req (not_preflight req Hr)).
  unfold bind, paymentMiddleware.
  rewrite (find_route_upload srv req Hr), Hc. reflexivity.
Qed.

Lemma serve_preflight :
  method req = OPTIONS ->
  serve srv w req = (Resolved {| status := 204; body := [] |}, []).
Proof.
  intros Hm. unfold serve, app, cors. rewrite Hm. reflexivity.
Qed.

(** Every request is served along one of the paths of [Served]. *)
Lemma serve_served :
  exists r tr, serve srv w req = (Resolved r, tr) /\ Served srv w req r tr.
Proof.
  assert (method req = OPTIONS \/ method req <> OPTIONS) as [Hopt | Hopt]
    by (destruct (method req); auto; right; discriminate).
  { eexists _, _. split; [apply serve_preflight, Hopt|].
    apply Served_preflight, Hopt. }
  destruct (route_matches POST "/upload" req) eqn:Hup.
  - destruct (headers req !! "x-payment") as [c|] eqn:Hc.
    2:{ eexists _, _. split; [apply serve_no_credential; assumption|].
        apply Served_no_credential; assumption. }
    destruct (facilitator_verify w c) as [[|]|e] eqn:Hv.
    2,3: eexists _, _; split;
      [ apply (serve_bad_credential c); try assumption; congruence
      | apply (Served_bad_credential srv w req c);
        try assumption; congruence ].
    assert (Hpaid : paid w req c) by (repeat split; assumption).
    rewrite (serve_paid srv w req Hup c Hc Hv).
    run_handler.
    destruct (image req) as [file|] eqn:Hf.
    2:{ eexists _, _. split; [reflexivity|].
        apply (Served_no_file srv w req c); assumption. }
    destruct (JS.startsWith (mimetype file) "image/") eqn:Hmime.
    2:{ eexists _, _. split; [reflexivity|].
        apply (Served_not_image srv w req c file); assumption. }
    destruct (N.ltb_spec (fileSize (upload srv)) (size file)) as [Hlt | Hle].
    { eexists _, _. split; [reflexivity|].
      apply (Served_too_large srv w req c file); assumption. }
    assert (Hacc : accepted srv req file) by (repeat split; assumption).
    destruct (storage_answer srv w file) as [[[]|ue]|ue] eqn:Hs;
      unfold storage_answer, stored_path in Hs; cbn in Hs |- *; rewrite Hs; cbn.
    + destruct (images_insert w (record_of srv w req file))
        as [[dbData|de]|de] eqn:Hi;
        unfold record_of, stored_url, stored_path in Hi; cbn in Hi |- *;
        rewrite Hi; cbn; eexists _, _; (split; [reflexivity|]).
      * pose proof (Served_recorded srv w req c file dbData Hpaid Hacc) as S.
        unfold storage_call, insert_call, storage_answer, record_of,
          stored_url, stored_path in S. rewrite Hs, Hi in S.
        apply S; reflexivity.
      * pose proof (Served_unrecorded srv w req c file de Hpaid Hacc) as S.
        unfold storage_call, insert_call, storage_answer, record_of,
          stored_url, stored_path in S. rewrite Hs, Hi in S.
        apply S; reflexivity.
      * pose proof (Served_insert_rejected srv w req c file de Hpaid Hacc) as S.
        unfold storage_call, insert_call, storage_answer, record_of,
          stored_url, stored_path in S. rewrite Hs, Hi in S.
        apply S; reflexivity.
    + eexists _, _. split; [reflexivity|].
      pose proof (Served_storage_error srv w req c file ue Hpaid Hacc) as S.
      unfold storage_call, storage_answer, stored_path in S. rewrite Hs in S.
      apply S; reflexivity.
    + eexists _, _. split; [reflexivity|].
      pose proof (Served_storage_rejected srv w req c file ue Hpaid Hacc) as S.
      unfold storage_call, storage_answer, stored_path in S. rewrite Hs in S.
      apply S; reflexivity.
  - destruct (route_matches GET "/health" req) eqn:Hh.
    { unfold serve. rewrite (app_behind_cors srv req Hopt). unfold bind.
      rewrite (gate_skips srv w req Hup St0). unfold and_then, routes.
      rewrite Hh.
      eexists _, _. split; [reflexivity|].
      apply Served_health; assumption. }
    destruct (route_matches GET "/images" req) eqn:Hi.
    { rewrite (serve_images srv w req Hopt Hh Hi).
      destruct (images_select w images_query) as [[rows|e]|e] eqn:Hsel;
        eexists _, _; (split; [reflexivity|]).
      - apply Served_images; assumption.
      - apply Served_images_error; assumption.
      - apply Served_images_rejected; assumption. }
    unfold serve. rewrite (app_behind_cors srv req Hopt). unfold bind.
    rewrite (gate_skips srv w req Hup St0). unfold and_then, routes.
    rewrite Hh, Hi, Hup. eexists _, _. split; [reflexivity|].
    apply Served_not_found; assumption.
Qed.

End Chain.

Lemma served_of_serve (srv : Server) (w : World) (req : Request)
    (out : Outcome Response) (tr : list Event) :
  serve srv w req = (out, tr) ->
  exists r, out = Resolved r /\ Served srv w req r tr.
Proof.
  intros H. destruct (serve_served srv w req) as (r & tr' & E & S).
  rewrite E in H. injection H as <- <-. exists r. split; [reflexivity|exact S].
Qed.

(** ** Uploads one after the other *)






(** X2: a response with status 400, 404 or 500 has a body with the single
    member [error], and its text is one of the texts written in the
    module: what a collaborator reported is never sent to the client. *)
Theorem error_bodies_are_fixed_texts
    (srv : Server) (w : World) (req : Request)
    (r : Response) (tr : list Event) :
  serve srv w req = (Resolved r, tr) ->
  status r ∈ [400; 404; 500] ->
  exists m, body r = [ ("error", JStr m) ] /\ m ∈ error_messages.
Proof.
  intros E Hst.
  destruct (served_of_serve srv w req _ _ E) as (r' & [= <-] & S).
  destruct S; cbn in Hst |- *;
    try (eexists; split; [reflexivity|]; unfold error_messages; in_list).
  all: split_trace Hst.
Qed.

Lemma error_bodies_are_fixed_texts_witness :
  exists m,
    body (error_response 500 "Failed to upload image to storage")
    = [ ("error", JStr m) ] /\ m ∈ error_messages.
Proof.
  apply (error_bodies_are_fixed_texts Example.srv Example.bucket_missing
           (Example.post_upload [("x-payment", "paid")] Example.cat_png)
           (error_response 500 "Failed to upload image to storage")
           (snd (serve Example.srv Example.bucket_missing
                   (Example.post_upload [("x-payment", "paid")] Example.cat_png)))).
  - vm_compute. reflexivity.
  - cbn. do 2 apply list_elem_of_further. apply list_elem_of_here.
Defined.

(** X3: a request that is neither a [POST] nor a preflight, and that
    neither [GET] route serves, is answered 404 with the text "Endpoint
    not found"; no collaborator is called, also when the request carries
    a payment credential. *)
Theorem unknown_route_not_found (srv : Server) (w : World) (req : Request) :
  method req <> POST -> method req <> OPTIONS ->
  route_matches GET "/health" req = false ->
  route_matches GET "/images" req = false ->
  serve srv w req = (Resolved (error_response 404 "Endpoint not found"), []).
Proof.
  intros Hpost Hopt Hh Hi.
  assert (Hup : route_matches POST "/upload" req = false).
  { unfold route_matches. destruct (method req); try reflexivity.
    contradiction Hpost; reflexivity. }
  unfold serve. rewrite (app_behind_cors srv req Hopt). unfold bind.
  rewrite (gate_skips srv w req Hup St0). unfold and_then, routes.
  rewrite Hh, Hi, Hup. reflexivity.
Qed.

Lemma unknown_route_not_found_witness :
  serve Example.srv Example.unreachable
    {| method := GET; url := "/upload";
       headers := {[ "x-payment" := "paid" ]}; image := None |}
  = (Resolved (error_response 404 "Endpoint not found"), []).
Proof.
  apply (unknown_route_not_found Example.srv Example.unreachable
           {| method := GET; url := "/upload";
              headers := {[ "x-payment" := "paid" ]}; image := None |});
    solve [discriminate | reflexivity].
Defined.

(** X4: a paid [POST /upload] without a file part is answered 400 with
    the text "No image file provided"; after the facilitator nothing is
    called. *)
Theorem paid_upload_without_file
    (srv : Server) (w : World) (req : Request) (credential : string) :
  paid w req credential ->
  image req = None ->
  serve srv w req
  = (Resolved (error_response 400 "No image file provided"),
     [EVerify credential (Resolved true)]).
Proof.
  intros (Hr & Hc & Hv) Hf.
  rewrite (serve_paid srv w req Hr credential Hc Hv).
  unfold validate_and_handle, single. rewrite Hf. reflexivity.
Qed.

Lemma paid_upload_without_file_witness :
  serve Example.srv (Example.world true)
    {| method := POST; url := "/upload";
       headers := {[ "x-payment" := "paid" ]}; image := None |}
  = (Resolved (error_response 400 "No image file provided"),
     [EVerify "paid" (Resolved true)]).
Proof.
  apply (paid_upload_without_file Example.srv (Example.world true)
           {| method := POST; url := "/upload";
              headers := {[ "x-payment" := "paid" ]}; image := None |} "paid").
  - repeat split; reflexivity.
  - reflexivity.
Defined.

(** X5: when the storage upload does not succeed, the response is 500,
    carries neither [url] nor [path], and the table insert is not called.
    The text is "Failed to upload image to storage" when the store
    reported an error and "Internal server error during upload" when the
    call rejected. *)
Theorem storage_failure_is_500_without_insert
    (srv : Server) (w : World) (req : Request)
    (out : Outcome Response) (tr : list Event)
    (bucket : option string) (p : string) (content : Buffer) (ct : string)
    (ans : Outcome (SupaResult unit)) :
  serve srv w req = (out, tr) ->
  EStorageUpload bucket p content ct ans ∈ tr ->
  ans <> Resolved (Data tt) ->
  exists r,
    out = Resolved r /\ status r = 500 /\
    member "url" (body r) = None /\ member "path" (body r) = None /\
    (forall record a, EDbInsert record a ∉ tr) /\
    (forall e, ans = Resolved (Failure e) ->
       body r = [ ("error", JStr "Failed to upload image to storage") ]) /\
    (forall e, ans = Rejected e ->
       body r = [ ("error", JStr "Internal server error during upload") ]).
Proof.
  intros E Hup Hans.
  destruct (served_of_serve srv w req _ _ E) as (r & -> & S).
  exists r. split; [reflexivity|].
  destruct S as [ | | | | | | | | | | |c file e Hp Ha Hs|c file e Hp Ha Hs
                |c file row Hp Ha Hs Hi|c file e Hp Ha Hs Hi|c file e Hp Ha Hs Hi];
    split_calls Hup; injection Hup as -> -> -> -> ->.
  - repeat split; try reflexivity.
    + intros record a Hin. split_calls Hin.
    + intros e' H. rewrite Hs in H. discriminate H.
  - repeat split; try reflexivity.
    + intros record a Hin. split_calls Hin.
    + intros e' H. rewrite Hs in H. discriminate H.
  - contradiction.
  - contradiction.
  - contradiction.
Qed.

Lemma storage_failure_is_500_without_insert_witness :
  exists r,
    fst (serve Example.srv Example.bucket_missing
           (Example.post_upload [("x-payment", "paid")] Example.cat_png))
    = Resolved r /\ status r = 500 /\
    member "url" (body r) = None /\ member "path" (body r) = None /\
    body r = [ ("error", JStr "Failed to upload image to storage") ].
Proof.
  destruct (storage_failure_is_500_without_insert
              Example.srv Example.bucket_missing
              (Example.post_upload [("x-payment", "paid")] Example.cat_png)
              (fst (serve Example.srv Example.bucket_missing
                      (Example.post_upload [("x-payment", "paid")] Example.cat_png)))
              (snd (serve Example.srv Example.bucket_missing
                      (Example.post_upload [("x-payment", "paid")] Example.cat_png)))
              (Some "images") "uploads/1700000000000-cat.png"
              (buffer Example.cat_png) "image/png"
              (Resolved (Failure "Bucket not found")))
    as (r & E & Hst & Hurl & Hpath & _ & Herr & _).
  - vm_compute. reflexivity.
  - vm_compute. apply list_elem_of_further, list_elem_of_here.
  - discriminate.
  - exists r. repeat split; try assumption.
    apply (Herr "Bucket not found"). reflexivity.
Defined.

(** X6: when the table insert returned a row, the response is 201; [id]
    and [uploadedAt] are taken from the returned row, [url] and [path]
    from the record that was inserted. *)
Theorem recorded_upload_is_201_with_row_id
    (srv : Server) (w : World) (req : Request)
    (out : Outcome Response) (tr : list Event)
    (record : ImageRecord) (dbData : Row) :
  serve srv w req = (out, tr) ->
  EDbInsert record (Resolved (Data dbData)) ∈ tr ->
  exists r,
    out = Resolved r /\ status r = 201 /\
    member "id" (body r) = Some (JStr (id dbData)) /\
    member "uploadedAt" (body r) = Some (JIso (uploaded_at (fields dbData))) /\
    member "url" (body r) = Some (JStr (public_url record)) /\
    member "path" (body r) = Some (JStr (path record)) /\
    member "error" (body r) = None.
Proof.
  intros E Hins.
  destruct (served_of_serve srv w req _ _ E) as (r & -> & S).
  exists r. split; [reflexivity|].
  destruct S as [ | | | | | | | | | | |c file e Hp Ha Hs|c file e Hp Ha Hs
                |c file row Hp Ha Hs Hi|c file e Hp Ha Hs Hi|c file e Hp Ha Hs Hi];
    split_calls Hins; injection Hins as -> Hans; rewrite Hi in Hans.
  - injection Hans as ->. repeat split; reflexivity.
  - discriminate Hans.
  - discriminate Hans.
Qed.

Lemma recorded_upload_is_201_with_row_id_witness :
  exists r,
    fst (serve Example.srv (Example.world true)
           (Example.post_upload [("x-payment", "paid")] Example.cat_png))
    = Resolved r /\ status r = 201 /\
    member "id" (body r) = Some (JStr "7f1c-67") /\
    member "uploadedAt" (body r) = Some (JIso 1700000000001) /\
    member "url" (body r)
    = Some (JStr "https://cdn.example/images/uploads/1700000000000-cat.png") /\
    member "path" (body r) = Some (JStr "uploads/1700000000000-cat.png") /\
    member "error" (body r) = None.
Proof.
  apply (recorded_upload_is_201_with_row_id Example.srv (Example.world true)
           (Example.post_upload [("x-payment", "paid")] Example.cat_png)
           _ (snd (serve Example.srv (Example.world true)
                     (Example.post_upload [("x-payment", "paid")] Example.cat_png)))
           (record_of Example.srv (Example.world true)
              (Example.post_upload [("x-payment", "paid")] Example.cat_png)
              Example.cat_png)
           {| id := "7f1c-67";
              fields := record_of Example.srv (Example.world true)
                          (Example.post_upload [("x-payment", "paid")] Example.cat_png)
                          Example.cat_png |}).
  - vm_compute. reflexivity.
  - vm_compute. do 2 apply list_elem_of_further. apply list_elem_of_here.
Defined.

(** X7: when the table insert rejects, the response is 500 with the text
    "Internal server error during upload" and without [url] or [path],
    although the file was stored under the record's path. *)
Theorem insert_rejection_is_500
    (srv : Server) (w : World) (req : Request)
    (out : Outcome Response) (tr : list Event)
    (record : ImageRecord) (reason : string) :
  serve srv w req = (out, tr) ->
  EDbInsert record (Rejected reason) ∈ tr ->
  out = Resolved (error_response 500 "Internal server error during upload") /\
  exists file,
    image req = Some file /\
    EStorageUpload (STORAGE_BUCKET srv) (path record) (buffer file)
      (mimetype file) (Resolved (Data tt)) ∈ tr.
Proof.
  intros E Hins.
  destruct (served_of_serve srv w req _ _ E) as (r & -> & S).
  destruct S as [ | | | | | | | | | | |c file e Hp Ha Hs|c file e Hp Ha Hs
                |c file row Hp Ha Hs Hi|c file e Hp Ha Hs Hi|c file e Hp Ha Hs Hi];
    split_calls Hins; injection Hins as -> Hans; rewrite Hi in Hans;
    try discriminate Hans.
  split; [reflexivity|]. exists file. split; [apply Ha|].
  unfold storage_call. rewrite Hs. cbn. in_list.
Qed.

Lemma insert_rejection_is_500_witness :
  fst (serve Example.srv Example.table_throws
         (Example.post_upload [("x-payment", "paid")] Example.cat_png))
  = Resolved (error_response 500 "Internal server error during upload") /\
  exists file,
    image (Example.post_upload [("x-payment", "paid")] Example.cat_png)
    = Some file /\
    EStorageUpload (Some "images") "uploads/1700000000000-cat.png"
      (buffer file) (mimetype file) (Resolved (Data tt))
    ∈ snd (serve Example.srv Example.table_throws
             (Example.post_upload [("x-payment", "paid")] Example.cat_png)).
Proof.
  apply (insert_rejection_is_500 Example.srv Example.table_throws
           (Example.post_upload [("x-payment", "paid")] Example.cat_png)
           _ _
           (record_of Example.srv Example.table_throws
              (Example.post_upload [("x-payment", "paid")] Example.cat_png)
              Example.cat_png)
           "fetch failed").
  - vm_compute. reflexivity.
  - vm_compute. do 2 apply list_elem_of_further. apply list_elem_of_here.
Defined.

(** X8: a request makes at most one storage upload and at most one table
    insert, and the insert only after the upload succeeded: the writes of
    a request are none, one upload that did not succeed, or one upload
    that succeeded followed by one insert. *)
Theorem writes_of_a_request (srv : Server) (w : World) (req : Request) :
  let writes := List.filter is_write (snd (serve srv w req)) in
  writes = [] \/
  (exists file,
      writes = [storage_call srv w file] /\
      storage_answer srv w file <> Resolved (Data tt)) \/
  (exists file,
      writes = [storage_call srv w file; insert_call srv w req file] /\
      storage_answer srv w file = Resolved (Data tt)).
Proof.
  destruct (serve_served srv w req) as (r & tr & E & S).
  rewrite E. cbn [snd].
  destruct S as [ | | | | | | | | | | |c file e Hp Ha Hs|c file e Hp Ha Hs
                |c file row Hp Ha Hs Hi|c file e Hp Ha Hs Hi|c file e Hp Ha Hs Hi];
    try (left; reflexivity).
  - right; left. exists file. split; [reflexivity|]. rewrite Hs. discriminate.
  - right; left. exists file. split; [reflexivity|]. rewrite Hs. discriminate.
  - right; right. exists file. split; [reflexivity|exact Hs].
  - right; right. exists file. split; [reflexivity|exact Hs].
  - right; right. exists file. split; [reflexivity|exact Hs].
Qed.

(** X9: a storage upload is attempted only for a request that the
    [POST /upload] route serves, with a credential the facilitator
    accepted and a file that is an image no larger than the ceiling; and
    it is attempted for every such request whose file is smaller than the
    ceiling. *)
Theorem upload_attempted_when_paid_and_valid
    (srv : Server) (w : World) (req : Request) :
  ((exists bucket p content ct ans,
       EStorageUpload bucket p content ct ans ∈ snd (serve srv w req)) ->
   exists credential file,
     paid w req credential /\
     image req = Some file /\
     JS.startsWith (mimetype file) "image/" = true /\
     size file <= fileSize (upload srv))
  /\
  (forall credential file,
      paid w req credential ->
      image req = Some file ->
      JS.startsWith (mimetype file) "image/" = true ->
      size file < fileSize (upload srv) ->
      exists bucket p content ct ans,
        EStorageUpload bucket p content ct ans ∈ snd (serve srv w req)).
Proof.
  destruct (serve_served srv w req) as (r & tr & E & S).
  rewrite E. cbn [snd]. split.
  - intros (b & p & ct & content & ans & Hup).
    destruct S as [ | | | | | | | | | | |c file e Hp Ha Hs|c file e Hp Ha Hs
                  |c file row Hp Ha Hs Hi|c file e Hp Ha Hs Hi|c file e Hp Ha Hs Hi];
      try (split_calls Hup; fail); exists c, file; split; assumption.
  - intros c file (Hr & Hc & Hv) Hf Hmime Hsize.
    pose proof (post_route_method req _ Hr) as Hm.
    destruct (upload_route_only req Hr) as [Hh Hi].
    destruct S as [Hopt|_ Hh'|rows _ _ Hi' _|e _ _ Hi' _|e _ _ Hi' _
                  |_ _ _ Hr'|_ Hc'|c' _ Hc' Hv'
                  |c' _ Hf'|c' file' _ Hf' Hmime'|c' file' _ Hf' _ Hsize'
                  |c' file' e Hp Ha Hs|c' file' e Hp Ha Hs
                  |c' file' row Hp Ha Hs Hins|c' file' e Hp Ha Hs Hins
                  |c' file' e Hp Ha Hs Hins].
    1-6: congruence.
    + congruence.
    + rewrite Hc in Hc'. injection Hc' as <-. contradiction.
    + congruence.
    + rewrite Hf in Hf'. injection Hf' as <-. congruence.
    + rewrite Hf in Hf'. injection Hf' as <-. lia.
    + eexists _, _, _, _, _. unfold storage_call. in_list.
    + eexists _, _, _, _, _. unfold storage_call. in_list.
    + eexists _, _, _, _, _. unfold storage_call. in_list.
    + eexists _, _, _, _, _. unfold storage_call. in_list.
    + eexists _, _, _, _, _. unfold storage_call. in_list.
Qed.

(** X10: what a request stores is what the client sent: the upload goes
    to the configured bucket, under ["uploads/"], the first clock read, a
    dash and the client's file name, with the file's bytes and the MIME
    type the client declared. *)
Theorem stored_object_comes_from_request
    (srv : Server) (w : World) (req : Request)
    (bucket : option string) (p : string) (content : Buffer) (ct : string)
    (ans : Outcome (SupaResult unit)) :
  EStorageUpload bucket p content ct ans ∈ snd (serve srv w req) ->
  exists file,
    image req = Some file /\
    bucket = STORAGE_BUCKET srv /\
    p = "uploads/" +:+ JS.show (clock w 0) +:+ "-" +:+ originalname file /\
    content = buffer file /\
    ct = mimetype file /\
    ans = storage_upload w bucket p content ct.
Proof.
  destruct (serve_served srv w req) as (r & tr & E & S).
  rewrite E. cbn [snd]. intros Hup.
  destruct S as [ | | | | | | | | | | |c file e Hp Ha Hs|c file e Hp Ha Hs
                |c file row Hp Ha Hs Hi|c file e Hp Ha Hs Hi|c file e Hp Ha Hs Hi];
    split_calls Hup; injection Hup as -> -> -> -> ->;
    exists file; (split; [apply Ha|]); repeat split; reflexivity.
Qed.

Lemma stored_object_comes_from_request_witness :
  exists file,
    image (Example.post_upload [("x-payment", "paid")] Example.dog_jpg)
    = Some file /\
    Some "images" = STORAGE_BUCKET Example.srv /\
    "uploads/1700000000000-dog.jpg"
    = "uploads/" +:+ JS.show (clock (Example.world true) 0) +:+ "-"
      +:+ originalname file /\
    buffer Example.dog_jpg = buffer file /\
    "image/jpeg" = mimetype file /\
    Resolved (Data tt)
    = storage_upload (Example.world true) (Some "images")
        "uploads/1700000000000-dog.jpg" (buffer Example.dog_jpg) "image/jpeg".
Proof.
  apply (stored_object_comes_from_request Example.srv (Example.world true)
           (Example.post_upload [("x-payment", "paid")] Example.dog_jpg)).
  vm_compute. apply list_elem_of_further, list_elem_of_here.
Defined.

Lemma filePath_under_uploads (now : N) (file : File) :
  JS.startsWith (filePath now file) "uploads/" = true.
Proof.
  unfold JS.startsWith, filePath. cbn. destruct (fileName now file); reflexivity.
Qed.

(** X11: every record handed to the table insert describes a validated
    image: its [mime] starts with ["image/"], its [file_size] is at most
    the ceiling, its [path] starts with ["uploads/"], its [public_url] is
    the store's public URL of that path, and its [uploaded_at] is the
    clock read made after the storage upload returned. *)
Theorem inserted_records_are_validated_images
    (srv : Server) (w : World) (req : Request)
    (record : ImageRecord) (ans : Outcome (SupaResult Row)) :
  EDbInsert record ans ∈ snd (serve srv w req) ->
  JS.startsWith (mime record) "image/" = true /\
  file_size record <= fileSize (upload srv) /\
  JS.startsWith (path record) "uploads/" = true /\
  public_url record
  = storage_getPublicUrl w (STORAGE_BUCKET srv) (path record) /\
  uploaded_at record = clock w 1.
Proof.
  destruct (serve_served srv w req) as (r & tr & E & S).
  rewrite E. cbn [snd]. intros Hins.
  destruct S as [ | | | | | | | | | | |c file e Hp Ha Hs|c file e Hp Ha Hs
                |c file row Hp Ha Hs Hi|c file e Hp Ha Hs Hi|c file e Hp Ha Hs Hi];
    split_calls Hins; injection Hins as -> _;
    destruct Ha as (_ & Hmime & Hsize);
    repeat split; try assumption; try reflexivity;
    apply filePath_under_uploads.
Qed.

Lemma inserted_records_are_validated_images_witness :
  let record := record_of Example.srv (Example.world true)
                  (Example.post_upload [("x-payment", "paid")] Example.cat_png)
                  Example.cat_png in
  JS.startsWith (mime record) "image/" = true /\
  file_size record <= fileSize (upload Example.srv) /\
  JS.startsWith (path record) "uploads/" = true /\
  public_url record
  = storage_getPublicUrl (Example.world true) (STORAGE_BUCKET Example.srv)
      (path record) /\
  uploaded_at record = clock (Example.world true) 1.
Proof.
  intros record.
  apply (inserted_records_are_validated_images Example.srv (Example.world true)
           (Example.post_upload [("x-payment", "paid")] Example.cat_png)
           record (images_insert (Example.world true) record)).
  vm_compute. do 2 apply list_elem_of_further. apply list_elem_of_here.
Defined.



(** X13: a required variable that is set to the empty string counts as
    missing: start-up exits with code 1 and the same message. *)
Theorem startup_rejects_empty_values (env : gmap string string) :
  env !! "FACILITATOR_URL" = Some "" \/ env !! "ADDRESS" = Some "" ->
  startup env = Exited 1 [missing_env_message].
Proof.
  intros H. unfold startup. destruct H as [-> | ->]; simpl.
  - reflexivity.
  - rewrite orb_true_r. reflexivity.
Qed.

Lemma startup_rejects_empty_values_witness :
  startup (<["ADDRESS" := ""]> Example.env) = Exited 1 [missing_env_message].
Proof.
  apply (startup_rejects_empty_values (<["ADDRESS" := ""]> Example.env)).
  right. reflexivity.
Defined.

(** X14: a server that starts has read its configuration from the
    environment: payee and facilitator are [ADDRESS] and
    [FACILITATOR_URL], the client is built from [SUPABASE_URL] and
    [SUPABASE_KEY], the bucket is [STORAGE_BUCKET] as found, and
    [NETWORK] and [PORT] fall back to ["base-sepolia"] and ["3001"] when
    unset or empty. *)
Theorem startup_configuration (env : gmap string string) (srv : Server) :
  startup env = Listening srv ->
  env !! "FACILITATOR_URL" = Some (facilitatorUrl srv) /\
  env !! "ADDRESS" = Some (payTo srv) /\
  env !! "SUPABASE_URL" = Some (supabaseUrl srv) /\
  env !! "SUPABASE_KEY" = Some (supabaseServiceKey srv) /\
  STORAGE_BUCKET srv = env !! "STORAGE_BUCKET" /\
  (forall v, env !! "NETWORK" = Some v -> v <> "" -> network srv = v) /\
  (env !! "NETWORK" = None \/ env !! "NETWORK" = Some "" ->
   network srv = "base-sepolia") /\
  (forall v, env !! "PORT" = Some v -> v <> "" -> PORT srv = v) /\
  (env !! "PORT" = None \/ env !! "PORT" = Some "" -> PORT srv = "3001").
Proof.
  assert (Hor : forall (v : option string) (d : string),
             (forall s, v = Some s -> s <> "" -> JS.or_default v d = s) /\
             (v = None \/ v = Some "" -> JS.or_default v d = d)).
  { intros v d. unfold JS.or_default, JS.truthy. split.
    - intros s -> Hs. destruct (String.eqb_spec s ""); [contradiction|reflexivity].
    - intros [-> | ->]; reflexivity. }
  unfold startup, createClient.
  destruct (JS.truthy (env !! "FACILITATOR_URL")) eqn:Ef; simpl; [|discriminate].
  destruct (JS.truthy (env !! "ADDRESS")) eqn:Ea; simpl; [|discriminate].
  destruct (JS.truthy (env !! "SUPABASE_URL")) eqn:Eu; simpl; [|discriminate].
  destruct (JS.truthy (env !! "SUPABASE_KEY")) eqn:Ek; simpl; [|discriminate].
  intros [= <-]. cbn.
  apply truthy_Some_nonempty in Ef as (f & -> & _).
  apply truthy_Some_nonempty in Ea as (a & -> & _).
  apply truthy_Some_nonempty in Eu as (u & -> & _).
  apply truthy_Some_nonempty in Ek as (k & -> & _).
  repeat split; try reflexivity; apply Hor.
Qed.

Lemma startup_configuration_witness :
  network Example.srv = "base-sepolia" /\ PORT Example.srv = "3001" /\
  STORAGE_BUCKET Example.srv = Some "images".
Proof.
  destruct (startup_configuration Example.env Example.srv)
    as (_ & _ & _ & _ & Hb & _ & Hnet & _ & Hport).
  - vm_compute. reflexivity.
  - split; [apply Hnet; left; reflexivity|].
    split; [apply Hport; left; reflexivity|].
    rewrite Hb. reflexivity.
Defined.
